(** * FixMatch dataset preparation: a shallow embedding

    Source: [pl_bolts/models/self_supervised/fixmatch/datasets.py].

    The module splits a labelled dataset into a small labelled index list
    and an unlabelled index pool ([x_u_split]), wraps the base dataset with
    index selection ([CIFAR10SSL], [CIFAR100SSL]), dispatches between one,
    two or three augmented views ([TransformSSL.__call__]) and assembles
    the two training datasets ([get_train_dataset]).

    Python exceptions are values of [exn]; fallible code returns [result];
    code that draws from numpy's global generator threads an explicit
    random source [rng]. *)

From Stdlib Require Import ZArith Lia.
From stdpp Require Import gmap strings list.

Local Open Scope Z_scope.

(** ** Exceptions and results *)

Inductive exn : Set :=
  | UnboundLocalError
  | ValueError
  | AssertionError
  | ZeroDivisionError
  | KeyError
  | IndexError
  | RuntimeError
  | OverflowError
  | AttributeError (name : string).

Inductive result (A : Type) : Type :=
  | Ok (a : A)
  | Raise (e : exn).
Arguments Ok {A} a.
Arguments Raise {A} e.

Definition rbind {A B} (r : result A) (k : A -> result B) : result B :=
  match r with
  | Ok a => k a
  | Raise e => Raise e
  end.

(** ** The random source

    numpy's generator is a hidden global state.  Here it is an arbitrary
    infinite sequence of raw draws; a bounded draw consumes one of them.
    Every statement below is proved for all such sequences. *)

Definition rng : Type := nat -> nat.

Definition rng_tail (g : rng) : rng := fun n => g (S n).

(** Computations that may raise and that consume randomness. *)
Definition M (A : Type) : Type := rng -> result (A * rng).

Definition ret {A} (a : A) : M A := fun g => Ok (a, g).

Definition raise {A} (e : exn) : M A := fun _ => Raise e.

Definition bind {A B} (c : M A) (k : A -> M B) : M B :=
  fun g => match c g with
           | Ok (a, g') => k a g'
           | Raise e => Raise e
           end.

Definition lift {A} (r : result A) : M A :=
  fun g => match r with
           | Ok a => Ok (a, g)
           | Raise e => Raise e
           end.

Declare Scope py_scope.
Delimit Scope py_scope with py.
Notation "'do' x <- c ; k" := (bind c (fun x => k))
  (at level 10, x name, c at level 99, k at level 200,
   format "'[v' 'do'  x  <-  c ; '/' k ']'") : py_scope.
Notation "'try' x <- r ; k" := (rbind r (fun x => k))
  (at level 10, x name, r at level 99, k at level 200,
   format "'[v' 'try'  x  <-  r ; '/' k ']'") : py_scope.
Local Open Scope py_scope.

(** [assert cond]. *)
Definition py_assert (cond : bool) : result unit :=
  if cond then Ok tt else Raise AssertionError.

(** [d[key]] on a dict. *)
Definition dict_getitem {V} (d : gmap string V) (key : string) : result V :=
  match d !! key with
  | Some v => Ok v
  | None => Raise KeyError
  end.

(** ** numpy primitives used by the module *)

(** A uniform draw from the closed interval [0, max]. *)
Definition random_interval (max : nat) : M nat :=
  fun g => Ok ((g 0%nat) `mod` (S max), rng_tail g)%nat.

(** In-place exchange of the entries at positions [i] and [j]. *)
Definition swap {A} (l : list A) (i j : nat) : list A :=
  match l !! i, l !! j with
  | Some x, Some y => <[i:=y]> (<[j:=x]> l)
  | _, _ => l
  end.

(** The loop of [np.random.shuffle]:
    [for i in reversed(range(1, n)): j = random_interval(i); x[i], x[j] = x[j], x[i]]. *)
Fixpoint shuffle_loop {A} (i : nat) (l : list A) : M (list A) :=
  match i with
  | O => ret l
  | S i' =>
      do j <- random_interval i;
      shuffle_loop i' (swap l i j)
  end.

Definition np_random_shuffle {A} (l : list A) : M (list A) :=
  shuffle_loop (length l - 1)%nat l.

(** [np.random.permutation(n)] shuffles [arange(n)]. *)
Definition np_random_permutation (n : nat) : M (list nat) :=
  np_random_shuffle (seq 0 n).

(** [a[idx]] for an array of valid positions. *)
Definition np_take {A} (a : list A) (idx : list nat) : result (list A) :=
  match mapM (fun j => a !! j) idx with
  | Some xs => Ok xs
  | None => Raise IndexError
  end.

(** [np.random.choice(a, size, False)]: a sample of [size] entries of [a]
    at pairwise distinct positions.  It raises [ValueError] when [a] is
    empty and a sample is requested, when [size] exceeds the population,
    and when [size] is negative. *)
Definition np_random_choice {A} (a : list A) (size : Z) : M (list A) :=
  let pop_size := length a in
  if (Nat.eqb pop_size 0) && negb (size =? 0) then raise ValueError
  else if Z.of_nat pop_size <? size then raise ValueError
  else if size <? 0 then raise ValueError
  else
    do perm <- np_random_permutation pop_size;
    lift (np_take a (take (Z.to_nat size) perm)).

(** [np.where(labels == v)[0]]: the positions holding [v], ascending. *)
Definition np_where_eq (labels : list Z) (v : Z) : list nat :=
  filter (fun j => labels !! j = Some v) (seq 0 (length labels)).

(** [math.ceil(a / b)] on integers.  [a / b] is a float: a zero divisor
    raises [ZeroDivisionError], and a quotient that rounds beyond the
    largest double, that is one of magnitude at least [2^1024 - 2^970],
    raises [OverflowError].  Within range the quotient is taken as the
    exact rational; the float agrees with it whenever [|a| < 2^53]. *)
Definition ceil_quot (a b : Z) : Z := - ((- a) / b).

Definition float_overflow (a b : Z) : bool :=
  (2 ^ 1024 - 2 ^ 970) * Z.abs b <=? Z.abs a.

Definition ceil_div (a b : Z) : result Z :=
  if b =? 0 then Raise ZeroDivisionError
  else if float_overflow a b then Raise OverflowError
  else Ok (ceil_quot a b).

(** [np.hstack([x for _ in range(n)])]; an empty sequence of arrays is
    refused with [ValueError]. *)
Definition np_hstack_copies {A} (n : Z) (x : list A) : result (list A) :=
  if n <=? 0 then Raise ValueError
  else Ok (concat (replicate (Z.to_nat n) x)).

(** ** [x_u_split] *)

(** Lines 86-89: [num_classes] is bound only for the two known names;
    reading it on line 90 raises [UnboundLocalError] otherwise. *)
Definition num_classes_of (dataset : string) : result Z :=
  if String.eqb dataset "cifar10" then Ok 10
  else if String.eqb dataset "cifar100" then Ok 100
  else Raise UnboundLocalError.

(** Lines 95-98: the loop over [range(num_classes)], given as the list of
    classes still to visit and the accumulator [labeled_idx]. *)
Fixpoint sample_classes (labels : list Z) (label_per_class : Z)
    (classes : list Z) (labeled_idx : list nat) : M (list nat) :=
  match classes with
  | [] => ret labeled_idx
  | i :: rest =>
      do idx <- np_random_choice (np_where_eq labels i) label_per_class;
      sample_classes labels label_per_class rest (labeled_idx ++ idx)
  end.

(** Lines 86-99: the labelled list before the assertion and the expansion. *)
Definition x_u_draw (dataset : string) (labels : list Z) (num_labeled : Z)
    : M (list nat) :=
  do num_classes <- lift (num_classes_of dataset);
  let label_per_class := num_labeled / num_classes in
  sample_classes labels label_per_class (seqZ 0 num_classes) [].

(** Lines 102-104. *)
Definition x_u_expand (num_labeled eval_step : Z) (expand_labels : bool)
    (batch_size : Z) (labeled_idx : list nat) : result (list nat) :=
  if expand_labels || (num_labeled <? batch_size) then
    try num_expand_x <- ceil_div (batch_size * eval_step) num_labeled;
    np_hstack_copies num_expand_x labeled_idx
  else Ok labeled_idx.

Definition x_u_split (dataset : string) (labels : list Z)
    (num_labeled eval_step : Z) (expand_labels : bool) (batch_size : Z)
    : M (list nat * list nat) :=
  do labeled_idx <- x_u_draw dataset labels num_labeled;
  let unlabeled_idx := seq 0 (length labels) in
  do _ <- lift (py_assert (Z.of_nat (length labeled_idx) =? num_labeled));
  do labeled_idx <- lift (x_u_expand num_labeled eval_step expand_labels
                         batch_size labeled_idx);
  do labeled_idx <- np_random_shuffle labeled_idx;
  ret (labeled_idx, unlabeled_idx).

(** The random source that always draws zero, and one that counts up. *)
Definition rng_zero : rng := fun _ => 0%nat.
Definition rng_count : rng := fun n => n.

Definition ten_labels : list Z := [0; 1; 2; 3; 4; 5; 6; 7; 8; 9].

(** Running a computation and dropping the final generator. *)
Definition run {A} (c : M A) (g : rng) : result A :=
  match c g with
  | Ok (a, _) => Ok a
  | Raise e => Raise e
  end.

(** ** numpy integer-array indexing

    [a[indexs]] with an integer index array: a negative index counts from
    the end, an index outside [-n, n) raises [IndexError]. *)

Definition np_index (n : nat) (k : Z) : result nat :=
  if (0 <=? k) && (k <? Z.of_nat n) then Ok (Z.to_nat k)
  else if (- Z.of_nat n <=? k) && (k <? 0) then Ok (Z.to_nat (k + Z.of_nat n))
  else Raise IndexError.

Definition np_getitem {A} (a : list A) (k : Z) : result A :=
  try p <- np_index (length a) k;
  match a !! p with
  | Some x => Ok x
  | None => Raise IndexError
  end.

Fixpoint np_fancy {A} (a : list A) (indexs : list Z) : result (list A) :=
  match indexs with
  | [] => Ok []
  | k :: rest =>
      try x <- np_getitem a k;
      try xs <- np_fancy a rest;
      Ok (x :: xs)
  end.

(** ** The vision library

    The image and tensor types, the augmentation primitives and the two
    base dataset loaders are not part of the module; they are the fields
    of an interface.  A randomised primitive consumes randomness and
    returns the remaining source. *)

Class Torchvision := {
  image : Type;
  tensor : Type;
  Resize : Z -> image -> image;
  RandomHorizontalFlip : image -> rng -> image * rng;
  RandomCrop : image -> rng -> image * rng;
  RandAugmentMC : image -> rng -> image * rng;
  RandomResizedCrop : image -> rng -> image * rng;
  RandomApplyColorJitter : image -> rng -> image * rng;
  RandomGrayscale : image -> rng -> image * rng;
  ToTensor : image -> tensor;
  (** [datasets.CIFAR10(root, train=..., download=...)]: data and targets. *)
  datasets_CIFAR10 : string -> bool -> bool -> result (list image * list Z);
  datasets_CIFAR100 : string -> bool -> bool -> result (list image * list Z)
}.

Section Module.
Context `{TV : Torchvision}.

(** [transforms.Compose] over randomised image transforms. *)
Fixpoint Compose (ts : list (image -> rng -> image * rng))
    (x : image) (g : rng) : image * rng :=
  match ts with
  | [] => (x, g)
  | t :: rest => let (y, g') := t x g in Compose rest y g'
  end.

Definition TRANS_WEAK : image -> rng -> image * rng :=
  Compose [RandomHorizontalFlip; RandomCrop].

Definition TRANS_STRONG : image -> rng -> image * rng :=
  Compose [RandomHorizontalFlip; RandomCrop; RandAugmentMC].

Definition TRANS_STRONG_ANOTHER : image -> rng -> image * rng :=
  Compose [RandomResizedCrop; RandomHorizontalFlip;
           RandomApplyColorJitter; RandomGrayscale].

(** ** [TransformSSL] *)

Record TransformSSL := {
  test_transforms : image -> image;
  weak : image -> rng -> image * rng;
  strong1 : image -> rng -> image * rng;
  strong2 : image -> rng -> image * rng;
  mode : string;
  normalize : image -> tensor
}.

(** Line 48 reads [self.DATASET_NORMS].  Neither the class nor the
    instance defines an attribute of that name, so the read raises
    [AttributeError]. *)
Definition TransformSSL_DATASET_NORMS
    : result (gmap string (tensor -> tensor)) :=
  Raise (AttributeError "DATASET_NORMS").

(** [__init__]: [norm = self.DATASET_NORMS[dataset]()], then
    [self.normalize = Compose([ToTensor(), norm])]. *)
Definition TransformSSL_init (dataset : string) (mode : string)
    : result TransformSSL :=
  try norms <- TransformSSL_DATASET_NORMS;
  try norm <- dict_getitem norms dataset;
  Ok {| test_transforms := Resize 32;
        weak := TRANS_WEAK;
        strong1 := TRANS_STRONG;
        strong2 := TRANS_STRONG_ANOTHER;
        mode := mode;
        normalize := fun x => norm (ToTensor x) |}.

(** What [__call__] returns: a bare tensor, a pair or a triple. *)
Inductive views : Type :=
  | View1 (a : tensor)
  | View2 (a b : tensor)
  | View3 (a b c : tensor).

Definition num_views (v : views) : nat :=
  match v with
  | View1 _ => 1
  | View2 _ _ => 2
  | View3 _ _ _ => 3
  end.

Definition TransformSSL_call (self : TransformSSL) (x : image) (g : rng)
    : views * rng :=
  if String.eqb (mode self) "test" then
    let test := test_transforms self x in
    (View1 (normalize self test), g)
  else
    let (weak_x, g1) := weak self x g in
    if String.eqb (mode self) "casual" then
      (View1 (normalize self weak_x), g1)
    else
      let (strong1_x, g2) := strong1 self x g1 in
      if String.eqb (mode self) "fixmatch" then
        (View2 (normalize self weak_x) (normalize self strong1_x), g2)
      else
        let (strong2_x, g3) := strong2 self x g2 in
        (View3 (normalize self weak_x) (normalize self strong1_x)
               (normalize self strong2_x), g3).

(** ** The dataset classes *)

Record Dataset := {
  data : list image;
  targets : list Z;
  transform : option TransformSSL
}.

(** [MAP_DATASET = {"cifar10": datasets.CIFAR10, "cifar100": datasets.CIFAR100}]:
    the values are the constructors, applied to [root], [train],
    [transform] and [download]. *)
Definition CIFAR10_init (root : string) (train : bool)
    (transform : option TransformSSL) (download : bool) : result Dataset :=
  try base <- datasets_CIFAR10 root train download;
  Ok {| data := base.1; targets := base.2; transform := transform |}.

Definition CIFAR100_init (root : string) (train : bool)
    (transform : option TransformSSL) (download : bool) : result Dataset :=
  try base <- datasets_CIFAR100 root train download;
  Ok {| data := base.1; targets := base.2; transform := transform |}.

(** Lines 68-70 and 76-78, shared by the two subclasses. *)
Definition select_indexs (self : Dataset) (indexs : option (list Z))
    : result Dataset :=
  match indexs with
  | None => Ok self
  | Some ix =>
      try d <- np_fancy (data self) ix;
      try t <- np_fancy (targets self) ix;
      Ok {| data := d; targets := t; transform := transform self |}
  end.

Definition CIFAR10SSL_init (root : string) (indexs : option (list Z))
    (train : bool) (transform : option TransformSSL) (download : bool)
    : result Dataset :=
  try self <- CIFAR10_init root train transform download;
  select_indexs self indexs.

Definition CIFAR100SSL_init (root : string) (indexs : option (list Z))
    (train : bool) (transform : option TransformSSL) (download : bool)
    : result Dataset :=
  try self <- CIFAR100_init root train transform download;
  select_indexs self indexs.

Definition MAP_DATASET
    : gmap string (string -> bool -> option TransformSSL -> bool
                   -> result Dataset) :=
  <["cifar10" := CIFAR10_init]> (<["cifar100" := CIFAR100_init]> ∅).

Definition MAP_SSL_DATASET
    : gmap string (string -> option (list Z) -> bool -> option TransformSSL
                   -> bool -> result Dataset) :=
  <["cifar10" := CIFAR10SSL_init]> (<["cifar100" := CIFAR100SSL_init]> ∅).

(** ** [get_train_dataset] *)

(** A subclass built with the index array that [x_u_split] returned.
    [np.array] of an empty sequence is a float array, which numpy refuses
    as an index: the base constructor runs and line 69 (77) raises
    [IndexError]. *)
Definition with_index_array
    (cls : string -> option (list Z) -> bool -> option TransformSSL -> bool
           -> result Dataset)
    (root : string) (idxs : list nat) (train : bool)
    (transform : option TransformSSL) (download : bool) : result Dataset :=
  match idxs with
  | [] =>
      try _ <- cls root None train transform download;
      Raise IndexError
  | _ => cls root (Some (Z.of_nat <$> idxs)) train transform download
  end.

Definition get_train_dataset (data_path dataset mode : string)
    (num_labeled batch_size eval_step : Z) (expand_labels : bool)
    : M (Dataset * Dataset) :=
  do _ <- lift (py_assert (existsb (String.eqb mode) ["fixmatch"; "comatch"]));
  do base_class <- lift (dict_getitem MAP_DATASET dataset);
  do base_dataset <- lift (base_class data_path true None true);
  do idxs <- x_u_split dataset (targets base_dataset) num_labeled eval_step
               expand_labels batch_size;
  let train_labeled_idxs := idxs.1 in
  let train_unlabeled_idxs := idxs.2 in
  do labeled_class <- lift (dict_getitem MAP_SSL_DATASET dataset);
  do labeled_transform <- lift (TransformSSL_init dataset "casual");
  do train_labeled_dataset <-
    lift (with_index_array labeled_class data_path train_labeled_idxs true
            (Some labeled_transform) false);
  do unlabeled_class <- lift (dict_getitem MAP_SSL_DATASET dataset);
  do unlabeled_transform <- lift (TransformSSL_init dataset mode);
  do train_unlabeled_dataset <-
    lift (with_index_array unlabeled_class data_path train_unlabeled_idxs
            true (Some unlabeled_transform) false);
  ret (train_labeled_dataset, train_unlabeled_dataset).

End Module.

(** ** [DataLoader] and [SSLDataModule]

    [DataLoader] belongs to the tensor library; it is kept as the record
    of its constructor arguments, and the constructor refuses a
    non-positive batch size with [ValueError].  An attribute of the data
    module that has not been assigned yet is [None], and reading it raises
    [AttributeError]. *)

Module SSLDataModule.

Definition getattr {A} (name : string) (field : option A) : result A :=
  match field with
  | Some a => Ok a
  | None => Raise (AttributeError name)
  end.

Section WithVision.
Context `{TV : Torchvision}.

Record DataLoader := {
  loader_dataset : Dataset;
  loader_batch_size : Z;
  pin_memory : bool;
  num_workers : Z;
  drop_last : bool
}.

Definition DataLoader_init (ds : Dataset) (batch_size : Z)
    (pin_memory : bool) (num_workers : Z) (drop_last : bool)
    : result DataLoader :=
  if batch_size <=? 0 then Raise ValueError
  else Ok {| loader_dataset := ds; loader_batch_size := batch_size;
             pin_memory := pin_memory; num_workers := num_workers;
             drop_last := drop_last |}.

Record t := {
  batch_size : Z;
  mu : Z;
  data_path : string;
  dataset : string;
  mode : string;
  num_labeled : Z;
  eval_step : Z;
  expand_labels : bool;
  test_dataset : option Dataset;
  train_labeled_dataset : option Dataset;
  train_unlabeled_dataset : option Dataset
}.

(** [__init__]; the defaults are [mu=7], [mode="fixmatch"],
    [num_labeled=4000], [batch_size=128], [eval_step=1024] and
    [expand_labels=True]. *)
Definition init (data_path dataset : string) (mu : Z) (mode : string)
    (num_labeled batch_size eval_step : Z) (expand_labels : bool) : t :=
  {| batch_size := batch_size; mu := mu; data_path := data_path;
     dataset := dataset; mode := mode; num_labeled := num_labeled;
     eval_step := eval_step; expand_labels := expand_labels;
     test_dataset := None; train_labeled_dataset := None;
     train_unlabeled_dataset := None |}.

(** [prepare_data]; the state of [self] after a raise is not kept. *)
Definition prepare_data (self : t) : M t :=
  do test_class <- lift (dict_getitem MAP_DATASET (dataset self));
  do test_transform <- lift (TransformSSL_init (dataset self) "test");
  do test <- lift (test_class (data_path self) false (Some test_transform)
                     false);
  do train <- get_train_dataset (data_path self) (dataset self) (mode self)
                (num_labeled self) (batch_size self) (eval_step self)
                (expand_labels self);
  ret {| batch_size := batch_size self; mu := mu self;
         data_path := data_path self; dataset := dataset self;
         mode := mode self; num_labeled := num_labeled self;
         eval_step := eval_step self; expand_labels := expand_labels self;
         test_dataset := Some test;
         train_labeled_dataset := Some train.1;
         train_unlabeled_dataset := Some train.2 |}.

Definition train_dataloader (self : t) : result (gmap string DataLoader) :=
  try labeled <- getattr "train_labeled_dataset" (train_labeled_dataset self);
  try labeled_loader <- DataLoader_init labeled (batch_size self) true 16 true;
  try unlabeled <-
    getattr "train_unlabeled_dataset" (train_unlabeled_dataset self);
  try unlabeled_loader <-
    DataLoader_init unlabeled (batch_size self * mu self) true 16 true;
  Ok (<["labeled" := labeled_loader]>
        (<["unlabeled" := unlabeled_loader]> ∅)).

Definition val_dataloader (self : t) : result DataLoader :=
  try test <- getattr "test_dataset" (test_dataset self);
  DataLoader_init test (batch_size self) false 8 false.

End WithVision.
End SSLDataModule.

(** ** A small concrete vision library

    Images and tensors are numbers; every randomised primitive adds one
    bounded draw to the pixel.  Each base dataset holds twenty samples,
    two per class for the first ten classes. *)

Definition toy_jitter (bound : nat) (x : nat) (g : rng) : nat * rng :=
  ((x + g 0%nat `mod` S bound)%nat, rng_tail g).

Definition toy_data : list nat :=
  [100; 101; 102; 103; 104; 105; 106; 107; 108; 109;
   110; 111; 112; 113; 114; 115; 116; 117; 118; 119]%nat.

Definition toy_load (root : string) (train download : bool)
    : result (list nat * list Z) :=
  if train then Ok (toy_data, ten_labels ++ ten_labels)
  else Raise RuntimeError.

Definition toy_vision : Torchvision := {|
  image := nat;
  tensor := nat;
  Resize := fun _ x => x;
  RandomHorizontalFlip := toy_jitter 1;
  RandomCrop := toy_jitter 8;
  RandAugmentMC := toy_jitter 10;
  RandomResizedCrop := toy_jitter 4;
  RandomApplyColorJitter := toy_jitter 3;
  RandomGrayscale := toy_jitter 2;
  ToTensor := fun x => x;
  datasets_CIFAR10 := toy_load;
  datasets_CIFAR100 := toy_load
|}.

(** A transform object with the pipelines of the module and a given
    mode; its normalisation doubles the pixel. *)
Definition toy_transform (md : string) : @TransformSSL toy_vision :=
  {| test_transforms := Resize (Torchvision := toy_vision) 32;
     weak := TRANS_WEAK;
     strong1 := TRANS_STRONG;
     strong2 := TRANS_STRONG_ANOTHER;
     mode := md;
     normalize := fun x => (x * 2)%nat |}.

(** * Properties *)

(** ** Inversion of the monad *)

Lemma bind_Ok {A B} (c : M A) (k : A -> M B) g r :
  bind c k g = Ok r <-> exists a g', c g = Ok (a, g') /\ k a g' = Ok r.
Proof.
  unfold bind. split.
  - destruct (c g) as [[a g']|e]; [eauto | discriminate].
  - intros (a & g' & -> & Hk). exact Hk.
Qed.

Lemma bind_Raise {A B} (c : M A) (k : A -> M B) g e :
  bind c k g = Raise e <->
  c g = Raise e \/ exists a g', c g = Ok (a, g') /\ k a g' = Raise e.
Proof.
  unfold bind. split.
  - destruct (c g) as [[a g']|e']; [right; eauto | left; congruence].
  - intros [-> | (a & g' & -> & Hk)]; [reflexivity | exact Hk].
Qed.

Lemma lift_Ok {A} (r : result A) g a g' :
  lift r g = Ok (a, g') <-> r = Ok a /\ g' = g.
Proof.
  unfold lift. destruct r; split; try intros [? ?]; try congruence.
  intros [= -> ->]. done.
Qed.

Lemma lift_Raise {A} (r : result A) g e :
  lift r g = Raise e <-> r = Raise e.
Proof. unfold lift. destruct r; split; congruence. Qed.

Lemma py_assert_Ok b u : py_assert b = Ok u <-> b = true.
Proof. destruct b, u; simpl; split; congruence. Qed.

(** ** Shuffling permutes *)

Lemma swap_length {A} (l : list A) i j : length (swap l i j) = length l.
Proof.
  unfold swap. destruct (l !! i), (l !! j); try done.
  by rewrite !length_insert.
Qed.

Lemma insert_as_delete {A} (l : list A) i x y :
  l !! i = Some x -> <[i:=y]> l ≡ₚ y :: delete i l.
Proof.
  revert i. induction l as [|z l IH]; intros [|i] Hi; simplify_eq/=.
  - done.
  - rewrite (IH _ Hi). apply Permutation_swap.
Qed.

Lemma insert_exchange {A} (l : list A) i j x y :
  l !! i = Some x -> l !! j = Some y -> <[i:=y]> (<[j:=x]> l) ≡ₚ l.
Proof.
  revert i j. induction l as [|a l IH]; intros [|i] [|j] Hi Hj; simplify_eq/=.
  - done.
  - etrans; [apply Permutation_skip; eapply insert_as_delete; eassumption|].
    etrans; [apply Permutation_swap|].
    apply Permutation_skip. symmetry. by apply delete_Permutation.
  - etrans; [apply Permutation_skip; eapply insert_as_delete; eassumption|].
    etrans; [apply Permutation_swap|].
    apply Permutation_skip. symmetry. by apply delete_Permutation.
  - apply Permutation_skip. by apply IH.
Qed.

Lemma swap_Permutation {A} (l : list A) i j : swap l i j ≡ₚ l.
Proof.
  unfold swap.
  destruct (l !! i) as [x|] eqn:Hi; [|done].
  destruct (l !! j) as [y|] eqn:Hj; [|done].
  by apply insert_exchange.
Qed.

Lemma shuffle_loop_spec {A} i (l : list A) g :
  exists l' g', shuffle_loop i l g = Ok (l', g') /\ l' ≡ₚ l.
Proof.
  revert l g. induction i as [|i IH]; intros l g; simpl.
  - by exists l, g.
  - unfold bind, random_interval.
    destruct (IH (swap l (S i) (g 0 `mod` S (S i))%nat) (rng_tail g))
      as (l' & g' & Hrun & Hperm).
    exists l', g'. split; [exact Hrun|].
    etrans; [exact Hperm | apply swap_Permutation].
Qed.

Lemma np_random_shuffle_spec {A} (l : list A) g :
  exists l' g', np_random_shuffle l g = Ok (l', g') /\ l' ≡ₚ l.
Proof. apply shuffle_loop_spec. Qed.

Lemma np_random_shuffle_Ok {A} (l l' : list A) g g' :
  np_random_shuffle l g = Ok (l', g') -> l' ≡ₚ l.
Proof.
  intros Hrun. destruct (np_random_shuffle_spec l g) as (k & h & Hk & Hp).
  congruence.
Qed.

(** ** Sampling without replacement *)

Lemma mapM_lookup_seq {A} (a : list A) :
  mapM (fun j => a !! j) (seq 0 (length a)) = Some a.
Proof.
  apply mapM_Some. apply Forall2_same_length_lookup. split.
  - by rewrite length_seq.
  - intros i j x Hj Hx. apply lookup_seq in Hj as [-> _]. done.
Qed.

Lemma mapM_Permutation {A B} (f : A -> option B) l1 l2 k1 :
  l1 ≡ₚ l2 -> mapM f l1 = Some k1 ->
  exists k2, mapM f l2 = Some k2 /\ k1 ≡ₚ k2.
Proof.
  intros Hp. revert k1.
  induction Hp as [|x l1 l2 Hp IH|x y l|l1 l2 l3 _ IH1 _ IH2]; intros k1 Hk.
  - exists k1. by split.
  - apply mapM_Some in Hk. inversion Hk as [|? b ? k1' Hb Hk' ]; subst.
    apply mapM_Some in Hk'. destruct (IH _ Hk') as (k2 & Hk2 & Hp2).
    exists (b :: k2). split; [|by constructor].
    apply mapM_Some. constructor; [done | by apply mapM_Some].
  - apply mapM_Some in Hk.
    inversion Hk as [|? b ? k1' Hb Hk' ]; subst.
    inversion Hk' as [|? c ? k1'' Hc Hk'' ]; subst.
    exists (c :: b :: k1''). split; [|apply Permutation_swap].
    apply mapM_Some. by repeat constructor.
  - destruct (IH1 _ Hk) as (k2 & Hk2 & Hp2).
    destruct (IH2 _ Hk2) as (k3 & Hk3 & Hp3).
    exists k3. split; [done | by etrans].
Qed.

Lemma mapM_take {A B} (f : A -> option B) l k n :
  mapM f l = Some k -> mapM f (take n l) = Some (take n k).
Proof.
  intros Hk. apply mapM_Some. apply Forall2_take. by apply mapM_Some.
Qed.

(** What a successful draw looks like: the sample is a prefix of some
    rearrangement of the population. *)
Definition sample_of {A} (xs a : list A) : Prop :=
  exists rest, xs ++ rest ≡ₚ a.

Lemma sample_of_NoDup {A} (xs a : list A) :
  sample_of xs a -> NoDup a -> NoDup xs.
Proof.
  intros [rest Hp] Ha. rewrite <- Hp in Ha.
  by apply NoDup_app in Ha as [? _].
Qed.

Lemma sample_of_elem {A} (xs a : list A) x :
  sample_of xs a -> x ∈ xs -> x ∈ a.
Proof.
  intros [rest Hp] Hx. rewrite <- Hp. apply elem_of_app. by left.
Qed.

Lemma np_random_choice_in_range {A} (a : list A) size g :
  0 <= size <= Z.of_nat (length a) ->
  exists xs g', np_random_choice a size g = Ok (xs, g') /\
                length xs = Z.to_nat size /\ sample_of xs a.
Proof.
  intros [Hlo Hhi]. unfold np_random_choice.
  assert ((length a =? 0)%nat && negb (size =? 0) = false) as ->.
  { destruct (Nat.eqb_spec (length a) 0) as [Hz|]; [|done].
    rewrite Hz in Hhi. simpl. apply negb_false_iff. apply Z.eqb_eq. lia. }
  assert ((Z.of_nat (length a) <? size) = false) as -> by (apply Z.ltb_ge; lia).
  assert ((size <? 0) = false) as -> by (apply Z.ltb_ge; lia).
  destruct (np_random_shuffle_spec (seq 0 (length a)) g)
    as (perm & g' & Hrun & Hperm).
  unfold np_random_permutation, bind. rewrite Hrun.
  destruct (mapM_Permutation (fun j => a !! j) _ perm a
              (symmetry Hperm) (mapM_lookup_seq a)) as (full & Hfull & Hp).
  exists (take (Z.to_nat size) full), g'. split; [|split].
  - unfold lift, np_take.
    by rewrite (mapM_take _ _ _ (Z.to_nat size) Hfull).
  - rewrite length_take. apply Permutation_length in Hp. lia.
  - exists (drop (Z.to_nat size) full). by rewrite take_drop.
Qed.

Lemma np_random_choice_out_of_range {A} (a : list A) size g :
  size < 0 \/ Z.of_nat (length a) < size ->
  np_random_choice a size g = Raise ValueError.
Proof.
  intros Hout. unfold np_random_choice.
  destruct ((length a =? 0)%nat && negb (size =? 0)); [done|].
  destruct (Z.ltb_spec (Z.of_nat (length a)) size); [done|].
  destruct (Z.ltb_spec size 0); [done | lia].
Qed.

Lemma np_random_choice_Ok {A} (a xs : list A) size g g' :
  np_random_choice a size g = Ok (xs, g') ->
  0 <= size <= Z.of_nat (length a) /\
  length xs = Z.to_nat size /\ sample_of xs a.
Proof.
  intros Hrun.
  destruct (decide (0 <= size <= Z.of_nat (length a))) as [Hin|Hout].
  - destruct (np_random_choice_in_range a size g Hin)
      as (ys & h & Hys & Hlen & Hs).
    rewrite Hrun in Hys. by simplify_eq.
  - rewrite np_random_choice_out_of_range in Hrun by lia. discriminate.
Qed.

(** ** Positions of a class *)

Lemma elem_of_np_where_eq labels v j :
  j ∈ np_where_eq labels v <-> labels !! j = Some v.
Proof.
  unfold np_where_eq. rewrite list_elem_of_filter, elem_of_seq. split.
  - by intros [? _].
  - intros Hj. split; [done|]. apply lookup_lt_Some in Hj. lia.
Qed.

Lemma NoDup_np_where_eq labels v : NoDup (np_where_eq labels v).
Proof. apply NoDup_filter, NoDup_seq. Qed.

Lemma length_where_shift (pre l : list Z) v :
  length (filter (fun j => (pre ++ l) !! j = Some v)
            (seq (length pre) (length l)))
  = count_occ Z.eq_dec l v.
Proof.
  revert pre. induction l as [|y l IH]; intros pre; [done|].
  cbn [length seq count_occ]. rewrite filter_cons.
  rewrite (list_lookup_middle pre l y (length pre) eq_refl).
  specialize (IH (pre ++ [y])).
  rewrite <- app_assoc, length_app in IH. cbn [length app] in IH.
  replace (length pre + 1)%nat with (S (length pre)) in IH by lia.
  destruct (Z.eq_dec y v) as [->|Hne].
  - rewrite decide_True by done. cbn [length]. by rewrite IH.
  - rewrite decide_False by congruence. exact IH.
Qed.

Lemma length_np_where_eq labels v :
  length (np_where_eq labels v) = count_occ Z.eq_dec labels v.
Proof. exact (length_where_shift [] labels v). Qed.

(** ** The per-class loop *)

(** Class [i] holds enough samples for a draw of [label_per_class]. *)
Definition enough (labels : list Z) (label_per_class i : Z) : Prop :=
  0 <= label_per_class <= Z.of_nat (count_occ Z.eq_dec labels i).

(** One chunk of the labelled list: the draw made for class [i]. *)
Definition class_chunk (labels : list Z) (label_per_class i : Z)
    (chunk : list nat) : Prop :=
  Z.of_nat (length chunk) = label_per_class /\
  NoDup chunk /\
  Forall (fun j => labels !! j = Some i) chunk.

Lemma np_random_choice_chunk labels lpc i chunk g g' :
  np_random_choice (np_where_eq labels i) lpc g = Ok (chunk, g') ->
  enough labels lpc i /\ class_chunk labels lpc i chunk.
Proof.
  intros Hrun. apply np_random_choice_Ok in Hrun as (Hrange & Hlen & Hs).
  rewrite length_np_where_eq in Hrange. split; [exact Hrange|].
  split; [lia|]. split.
  - eapply sample_of_NoDup; [exact Hs | apply NoDup_np_where_eq].
  - apply Forall_forall. intros j Hj.
    apply elem_of_np_where_eq. by eapply sample_of_elem.
Qed.

Lemma chunk_member_class labels lpc classes chunks j :
  Forall2 (class_chunk labels lpc) classes chunks ->
  j ∈ concat chunks ->
  exists i, i ∈ classes /\ labels !! j = Some i.
Proof.
  induction 1 as [|i chunk classes chunks (_ & _ & Hlab) _ IH];
    cbn [concat]; intros Hj.
  - by apply elem_of_nil in Hj.
  - apply elem_of_app in Hj as [Hj|Hj].
    + exists i. split; [left|]. rewrite Forall_forall in Hlab. by apply Hlab.
    + destruct (IH Hj) as (i' & Hi' & Hl). exists i'. split; [by right|done].
Qed.

Lemma chunks_NoDup labels lpc classes chunks :
  NoDup classes ->
  Forall2 (class_chunk labels lpc) classes chunks ->
  NoDup (concat chunks).
Proof.
  intros Hnd Hchunks.
  induction Hchunks as [|i chunk classes chunks Hchunk Hrest IH];
    cbn [concat]; [constructor|].
  apply NoDup_cons in Hnd as [Hfresh Hnd].
  apply NoDup_app. split; [by destruct Hchunk as (_ & ? & _)|].
  split; [|by apply IH].
  intros j Hj Hj'. destruct Hchunk as (_ & _ & Hlab).
  rewrite Forall_forall in Hlab. specialize (Hlab j Hj).
  destruct (chunk_member_class _ _ _ _ _ Hrest Hj') as (i' & Hi' & Hl).
  congruence.
Qed.

Lemma sample_classes_Ok labels lpc classes acc r g g' :
  sample_classes labels lpc classes acc g = Ok (r, g') ->
  Forall (enough labels lpc) classes /\
  exists chunks, r = acc ++ concat chunks /\
                 Forall2 (class_chunk labels lpc) classes chunks.
Proof.
  revert acc g. induction classes as [|i rest IH]; intros acc g Hrun.
  - injection Hrun as <- <-. split; [constructor|].
    exists []. split; [by rewrite app_nil_r | constructor].
  - cbn [sample_classes] in Hrun.
    apply bind_Ok in Hrun as (chunk & g1 & Hchoice & Hrest).
    apply np_random_choice_chunk in Hchoice as [Hen Hchunk].
    apply IH in Hrest as (Hall & chunks & -> & Hchunks).
    split; [by constructor|].
    exists (chunk :: chunks). split; [by rewrite <- app_assoc|].
    by constructor.
Qed.

Lemma sample_classes_enough labels lpc classes acc g :
  Forall (enough labels lpc) classes ->
  exists r g', sample_classes labels lpc classes acc g = Ok (r, g').
Proof.
  intros Hall. revert acc g.
  induction Hall as [|i rest Hi _ IH]; intros acc g.
  - by exists acc, g.
  - cbn [sample_classes]. unfold enough in Hi.
    rewrite <- length_np_where_eq in Hi.
    destruct (np_random_choice_in_range _ _ g Hi) as (chunk & g1 & Hc & _).
    destruct (IH (acc ++ chunk) g1) as (r & g' & Hr).
    exists r, g'. apply bind_Ok. eauto.
Qed.

Lemma sample_classes_short labels lpc classes acc g i :
  i ∈ classes ->
  Z.of_nat (count_occ Z.eq_dec labels i) < lpc ->
  sample_classes labels lpc classes acc g = Raise ValueError.
Proof.
  intros Hi Hshort. revert acc g.
  induction classes as [|c rest IH]; intros acc g.
  - by apply elem_of_nil in Hi.
  - cbn [sample_classes]. apply bind_Raise.
    destruct (np_random_choice (np_where_eq labels c) lpc g)
      as [[chunk g1]|e] eqn:Hc.
    + right. exists chunk, g1. split; [done|].
      apply np_random_choice_chunk in Hc as [Hen _].
      apply elem_of_cons in Hi as [->|Hi]; [unfold enough in Hen; lia|].
      by apply IH.
    + left. rewrite np_random_choice_out_of_range in Hc.
      * by symmetry.
      * rewrite length_np_where_eq.
        destruct (decide (lpc < 0)) as [|Hnn]; [by left|]. right.
        destruct (decide (Z.of_nat (count_occ Z.eq_dec labels c) < lpc))
          as [|Hge]; [done|].
        rewrite <- length_np_where_eq in Hge.
        destruct (np_random_choice_in_range (np_where_eq labels c) lpc g)
          as (? & ? & Hok & _); [lia | congruence].
Qed.

(** ** Expansion *)

Lemma ceil_quot_is_ceiling a b :
  0 < b -> (ceil_quot a b - 1) * b < a <= ceil_quot a b * b.
Proof.
  intros Hb. unfold ceil_quot.
  pose proof (Z.div_mod (- a) b) as Hdm.
  pose proof (Z.mod_pos_bound (- a) b Hb) as Hmod. nia.
Qed.

Lemma length_concat_replicate {A} n (x : list A) :
  length (concat (replicate n x)) = (n * length x)%nat.
Proof.
  induction n as [|n IH]; [done|]. cbn [replicate concat].
  rewrite length_app, IH. lia.
Qed.

Lemma elem_of_concat_replicate {A} n (x : list A) y :
  y ∈ concat (replicate n x) -> y ∈ x.
Proof.
  induction n as [|n IH]; cbn [replicate concat].
  - intros H. by apply elem_of_nil in H.
  - intros [?|?]%elem_of_app; auto.
Qed.

Lemma x_u_expand_Ok nl es el bs pre ex :
  x_u_expand nl es el bs pre = Ok ex ->
  if el || (nl <? bs)
  then nl <> 0 /\ 0 < ceil_quot (bs * es) nl /\
       ex = concat (replicate (Z.to_nat (ceil_quot (bs * es) nl)) pre)
  else ex = pre.
Proof.
  unfold x_u_expand, ceil_div, np_hstack_copies.
  destruct (el || (nl <? bs)); [|congruence].
  destruct (Z.eqb_spec nl 0) as [|Hnz]; [discriminate|].
  destruct (float_overflow (bs * es) nl); [discriminate|]. cbn [rbind].
  destruct (Z.leb_spec (ceil_quot (bs * es) nl) 0); [discriminate|].
  intros [= <-]. done.
Qed.

(** ** Inversion of [x_u_split] *)

Lemma x_u_draw_inv dataset labels nl pre g g' :
  x_u_draw dataset labels nl g = Ok (pre, g') ->
  exists nc chunks,
    num_classes_of dataset = Ok nc /\
    Forall (enough labels (nl / nc)) (seqZ 0 nc) /\
    pre = concat chunks /\
    Forall2 (class_chunk labels (nl / nc)) (seqZ 0 nc) chunks.
Proof.
  unfold x_u_draw. intros Hrun.
  apply bind_Ok in Hrun as (nc & g1 & Hnc & Hloop).
  apply lift_Ok in Hnc as [Hnc ->].
  apply sample_classes_Ok in Hloop as (Hall & chunks & -> & Hchunks).
  by exists nc, chunks.
Qed.

Lemma x_u_draw_enough dataset labels nl nc g :
  num_classes_of dataset = Ok nc ->
  Forall (enough labels (nl / nc)) (seqZ 0 nc) ->
  exists pre g', x_u_draw dataset labels nl g = Ok (pre, g').
Proof.
  intros Hnc Hall.
  destruct (sample_classes_enough labels (nl / nc) (seqZ 0 nc) [] g Hall)
    as (pre & g' & Hrun).
  exists pre, g'. unfold x_u_draw. apply bind_Ok.
  exists nc, g. split; [by apply lift_Ok | done].
Qed.

Lemma x_u_draw_in_range dataset labels nl pre g g' j :
  x_u_draw dataset labels nl g = Ok (pre, g') ->
  j ∈ pre -> (j < length labels)%nat.
Proof.
  intros Hrun Hj.
  apply x_u_draw_inv in Hrun as (nc & chunks & _ & _ & -> & Hchunks).
  apply list_elem_of_In, in_concat in Hj as (chunk & Hchunk & Hj).
  apply list_elem_of_In, list_elem_of_lookup in Hchunk as [n Hn].
  destruct (Forall2_lookup_r _ _ _ _ _ Hchunks Hn) as (i & _ & _ & _ & Hlab).
  apply list_elem_of_In in Hj.
  rewrite Forall_forall in Hlab. by eapply lookup_lt_Some, Hlab.
Qed.

Lemma x_u_split_inv dataset labels nl es el bs g l u g' :
  x_u_split dataset labels nl es el bs g = Ok ((l, u), g') ->
  exists pre g1 ex,
    x_u_draw dataset labels nl g = Ok (pre, g1) /\
    Z.of_nat (length pre) = nl /\
    x_u_expand nl es el bs pre = Ok ex /\
    l ≡ₚ ex /\
    u = seq 0 (length labels).
Proof.
  unfold x_u_split. intros Hrun.
  apply bind_Ok in Hrun as (pre & g1 & Hdraw & Hrun).
  apply bind_Ok in Hrun as (? & g2 & Hassert & Hrun).
  apply lift_Ok in Hassert as [Hassert ->].
  apply py_assert_Ok, Z.eqb_eq in Hassert.
  apply bind_Ok in Hrun as (ex & g3 & Hex & Hrun).
  apply lift_Ok in Hex as [Hex ->].
  apply bind_Ok in Hrun as (l' & g4 & Hsh & Hret).
  injection Hret as <- <- <-.
  apply np_random_shuffle_Ok in Hsh.
  by exists pre, g1, ex.
Qed.

(** ** Integer-array indexing *)

Lemma np_getitem_Ok {A} (a : list A) k x :
  np_getitem a k = Ok x <->
  (0 <= k < Z.of_nat (length a) /\ a !! Z.to_nat k = Some x) \/
  (- Z.of_nat (length a) <= k < 0 /\
   a !! Z.to_nat (k + Z.of_nat (length a)) = Some x).
Proof.
  unfold np_getitem, np_index.
  destruct (Z.leb_spec 0 k), (Z.ltb_spec k (Z.of_nat (length a)));
    cbn [andb rbind].
  - destruct (a !! Z.to_nat k); split;
      [intros [= ->]; left; split; [lia | done]
      |intros [[_ [= ->]]|[? _]]; [done | lia]
      |discriminate
      |intros [[_ ?]|[? _]]; [done | lia]].
  - destruct (Z.leb_spec (- Z.of_nat (length a)) k), (Z.ltb_spec k 0);
      cbn [andb rbind]; try lia.
    split; [discriminate | intros [[? _]|[? _]]; lia].
  - destruct (Z.leb_spec (- Z.of_nat (length a)) k), (Z.ltb_spec k 0);
      cbn [andb rbind]; try lia.
    + destruct (a !! Z.to_nat (k + Z.of_nat (length a))); split;
        [intros [= ->]; right; split; [lia | done]
        |intros [[? _]|[_ [= ->]]]; [lia | done]
        |discriminate
        |intros [[? _]|[_ ?]]; [lia | done]].
    + split; [discriminate | intros [[? _]|[? _]]; lia].
  - lia.
Qed.

Lemma np_fancy_Ok {A} (a : list A) indexs xs :
  np_fancy a indexs = Ok xs ->
  Forall2 (fun k x => np_getitem a k = Ok x) indexs xs.
Proof.
  revert xs. induction indexs as [|k rest IH]; intros xs; cbn [np_fancy].
  - intros [= <-]. constructor.
  - destruct (np_getitem a k) as [x|] eqn:Hx; [|discriminate].
    cbn [rbind]. destruct (np_fancy a rest) as [ys|]; [|discriminate].
    cbn [rbind]. intros [= <-]. constructor; [done | by apply IH].
Qed.

(** * The claims *)

(** C1 (as amended).  When [x_u_split] returns, the labelled list drawn
    before the expansion holds exactly [num_labeled] indices.  The
    returned list holds [num_labeled] indices when no expansion takes
    place ([expand_labels] off and [num_labeled >= batch_size]) and
    [num_labeled * ceil(batch_size * eval_step / num_labeled)] otherwise. *)
Theorem x_u_split_labeled_count dataset labels num_labeled eval_step
    expand_labels batch_size g l u g' :
  x_u_split dataset labels num_labeled eval_step expand_labels batch_size g
    = Ok ((l, u), g') ->
  (exists pre g1, x_u_draw dataset labels num_labeled g = Ok (pre, g1) /\
                  Z.of_nat (length pre) = num_labeled) /\
  Z.of_nat (length l) =
    if expand_labels || (num_labeled <? batch_size)
    then num_labeled * ceil_quot (batch_size * eval_step) num_labeled
    else num_labeled.
Proof.
  intros Hrun.
  apply x_u_split_inv in Hrun as (pre & g1 & ex & Hdraw & Hlen & Hex & Hp & _).
  split; [by exists pre, g1|].
  apply x_u_expand_Ok in Hex. rewrite (Permutation_length Hp).
  destruct (expand_labels || (num_labeled <? batch_size)).
  - destruct Hex as (_ & Hpos & ->). rewrite length_concat_replicate. lia.
  - by subst ex.
Qed.

Lemma x_u_split_labeled_count_witness :
  exists l u g',
    x_u_split "cifar10" ten_labels 10 2 true 10 rng_zero = Ok ((l, u), g') /\
    (exists pre g1, x_u_draw "cifar10" ten_labels 10 rng_zero = Ok (pre, g1) /\
                    Z.of_nat (length pre) = 10) /\
    Z.of_nat (length l) = 10 * ceil_quot (10 * 2) 10.
Proof.
  do 3 eexists. split; [vm_compute; reflexivity|].
  eapply (x_u_split_labeled_count "cifar10" ten_labels 10 2 true 10 rng_zero).
  vm_compute; reflexivity.
Defined.

(** C1 as stated fails: with a budget of 10 labels, batches of 10 and
    2 evaluation steps, the returned labelled list has 20 entries. *)
Lemma x_u_split_labeled_count_counterexample :
  run (x_u_split "cifar10" ten_labels 10 2 true 10) rng_zero
    = Ok ([1; 2; 3; 4; 5; 6; 7; 8; 9; 0; 1; 2; 3; 4; 5; 6; 7; 8; 9; 0]%nat,
          [0; 1; 2; 3; 4; 5; 6; 7; 8; 9]%nat) /\
  Z.of_nat (length [1; 2; 3; 4; 5; 6; 7; 8; 9; 0; 1; 2; 3; 4; 5; 6; 7; 8;
                    9; 0]%nat) <> 10.
Proof. split; [vm_compute; reflexivity | vm_compute; discriminate]. Qed.

(** C2 (as amended).  [x_u_split] replicates the drawn labelled list if
    and only if [expand_labels] is on or [num_labeled < batch_size]: the
    returned list is then a rearrangement of
    [ceil(batch_size * eval_step / num_labeled)] copies of it.  With
    [expand_labels] off and [num_labeled >= batch_size] the returned list
    is a rearrangement of the drawn list itself. *)
Theorem x_u_split_replication dataset labels num_labeled eval_step
    expand_labels batch_size g l u g' :
  x_u_split dataset labels num_labeled eval_step expand_labels batch_size g
    = Ok ((l, u), g') ->
  exists pre g1,
    x_u_draw dataset labels num_labeled g = Ok (pre, g1) /\
    if expand_labels || (num_labeled <? batch_size)
    then l ≡ₚ concat (replicate
                        (Z.to_nat (ceil_quot (batch_size * eval_step)
                                     num_labeled)) pre)
    else l ≡ₚ pre.
Proof.
  intros Hrun.
  apply x_u_split_inv in Hrun as (pre & g1 & ex & Hdraw & _ & Hex & Hp & _).
  exists pre, g1. split; [done|].
  apply x_u_expand_Ok in Hex.
  destruct (expand_labels || (num_labeled <? batch_size)).
  - by destruct Hex as (_ & _ & <-).
  - by subst ex.
Qed.

Lemma x_u_split_replication_witness :
  exists l u g',
    x_u_split "cifar10" ten_labels 10 2 false 10 rng_count
      = Ok ((l, u), g') /\
    exists pre g1,
      x_u_draw "cifar10" ten_labels 10 rng_count = Ok (pre, g1) /\
      l ≡ₚ pre.
Proof.
  do 3 eexists. split; [vm_compute; reflexivity|].
  eapply (x_u_split_replication "cifar10" ten_labels 10 2 false 10 rng_count).
  vm_compute; reflexivity.
Defined.

(** C2 as stated fails: with [expand_labels] off, a budget of 10 labels
    and batches of 20, the drawn list of 10 indices comes back twice. *)
Lemma x_u_split_replication_counterexample :
  run (x_u_draw "cifar10" ten_labels 10) rng_zero
    = Ok [0; 1; 2; 3; 4; 5; 6; 7; 8; 9]%nat /\
  run (x_u_split "cifar10" ten_labels 10 1 false 20) rng_zero
    = Ok ([1; 2; 3; 4; 5; 6; 7; 8; 9; 0; 1; 2; 3; 4; 5; 6; 7; 8; 9; 0]%nat,
          [0; 1; 2; 3; 4; 5; 6; 7; 8; 9]%nat) /\
  ~ [1; 2; 3; 4; 5; 6; 7; 8; 9; 0; 1; 2; 3; 4; 5; 6; 7; 8; 9; 0]%nat
      ≡ₚ [0; 1; 2; 3; 4; 5; 6; 7; 8; 9]%nat.
Proof.
  split; [vm_compute; reflexivity|]. split; [vm_compute; reflexivity|].
  intros Hp. apply Permutation_length in Hp. discriminate.
Qed.

(** C4.  When the draw succeeds, the labelled list before expansion is the
    concatenation of one chunk per class [i] in [0 .. num_classes - 1];
    chunk [i] holds exactly [num_labeled // num_classes] indices, they
    are pairwise distinct, and each of them carries label [i].  The whole
    list is then free of duplicates as well. *)
Theorem x_u_draw_stratified dataset labels num_labeled pre g g' :
  x_u_draw dataset labels num_labeled g = Ok (pre, g') ->
  exists num_classes chunks,
    num_classes_of dataset = Ok num_classes /\
    pre = concat chunks /\
    NoDup pre /\
    length chunks = Z.to_nat num_classes /\
    forall i : nat, (i < Z.to_nat num_classes)%nat ->
      exists chunk,
        chunks !! i = Some chunk /\
        Z.of_nat (length chunk) = num_labeled / num_classes /\
        NoDup chunk /\
        forall j, j ∈ chunk -> labels !! j = Some (Z.of_nat i).
Proof.
  intros Hrun.
  apply x_u_draw_inv in Hrun as (nc & chunks & Hnc & _ & -> & Hchunks).
  exists nc, chunks. split; [done|]. split; [done|].
  split; [by eapply chunks_NoDup; [apply NoDup_seqZ|]|].
  pose proof (Forall2_length _ _ _ Hchunks) as Hlen.
  rewrite length_seqZ in Hlen. split; [done|].
  intros i Hi.
  assert (seqZ 0 nc !! i = Some (Z.of_nat i)) as Hlook.
  { rewrite lookup_seqZ. split; lia. }
  destruct (Forall2_lookup_l _ _ _ _ _ Hchunks Hlook)
    as (chunk & Hchunk & Hsize & Hnd & Hlab).
  exists chunk. repeat split; try done.
  intros j Hj. rewrite Forall_forall in Hlab. by apply Hlab.
Qed.

Lemma x_u_draw_stratified_witness :
  exists pre g',
    x_u_draw "cifar10" (ten_labels ++ ten_labels) 10 rng_count
      = Ok (pre, g') /\
    exists num_classes chunks,
      num_classes_of "cifar10" = Ok num_classes /\
      pre = concat chunks /\
      NoDup pre /\
      length chunks = Z.to_nat num_classes /\
      forall i : nat, (i < Z.to_nat num_classes)%nat ->
        exists chunk,
          chunks !! i = Some chunk /\
          Z.of_nat (length chunk) = 10 / num_classes /\
          NoDup chunk /\
          forall j, j ∈ chunk ->
            (ten_labels ++ ten_labels) !! j = Some (Z.of_nat i).
Proof.
  do 2 eexists. split; [vm_compute; reflexivity|].
  eapply (x_u_draw_stratified "cifar10" (ten_labels ++ ten_labels) 10 _
           rng_count).
  vm_compute; reflexivity.
Defined.

(** C5.  The unlabelled indices returned by [x_u_split] are exactly
    [0 .. len(labels) - 1], in order: they cover the whole dataset. *)
Theorem x_u_split_unlabeled_all dataset labels num_labeled eval_step
    expand_labels batch_size g l u g' :
  x_u_split dataset labels num_labeled eval_step expand_labels batch_size g
    = Ok ((l, u), g') ->
  u = seq 0 (length labels).
Proof.
  intros Hrun. by apply x_u_split_inv in Hrun as (? & ? & ? & _ & _ & _ & _ & ->).
Qed.

Lemma x_u_split_unlabeled_all_witness :
  exists l u g',
    x_u_split "cifar10" (ten_labels ++ ten_labels) 10 2 true 5 rng_count
      = Ok ((l, u), g') /\
    u = seq 0 (length (ten_labels ++ ten_labels)).
Proof.
  do 3 eexists. split; [vm_compute; reflexivity|].
  eapply (x_u_split_unlabeled_all "cifar10" (ten_labels ++ ten_labels) 10 2
           true 5 rng_count _ _ _).
  vm_compute; reflexivity.
Defined.

(** C7.  If some class [i] in [0 .. num_classes - 1] has fewer than
    [num_labeled // num_classes] samples, [x_u_split] raises the
    [ValueError] of the sampling step and returns nothing. *)
Theorem x_u_split_insufficient dataset labels num_labeled eval_step
    expand_labels batch_size num_classes i g :
  num_classes_of dataset = Ok num_classes ->
  0 <= i < num_classes ->
  Z.of_nat (count_occ Z.eq_dec labels i) < num_labeled / num_classes ->
  x_u_split dataset labels num_labeled eval_step expand_labels batch_size g
    = Raise ValueError.
Proof.
  intros Hnc Hi Hshort. unfold x_u_split.
  apply bind_Raise. left. unfold x_u_draw.
  apply bind_Raise. right. exists num_classes, g. split.
  - by apply lift_Ok.
  - eapply sample_classes_short; [|exact Hshort].
    apply elem_of_seqZ. lia.
Qed.

Lemma x_u_split_insufficient_witness :
  num_classes_of "cifar10" = Ok 10 /\
  0 <= 7 < 10 /\
  Z.of_nat (count_occ Z.eq_dec ten_labels 7) < 20 / 10 /\
  x_u_split "cifar10" ten_labels 20 1024 true 128 rng_count
    = Raise ValueError.
Proof.
  split; [reflexivity|]. split; [lia|]. split; [vm_compute; reflexivity|].
  eapply (x_u_split_insufficient "cifar10" ten_labels 20 1024 true 128 10 7).
  - reflexivity.
  - lia.
  - vm_compute; reflexivity.
Defined.

(** C9 (as amended).  Every labelled index returned by [x_u_split] also
    occurs among the returned unlabelled indices, and for a positive
    budget the two index sets share at least one index: they overlap. *)
Theorem x_u_split_labeled_in_unlabeled dataset labels num_labeled eval_step
    expand_labels batch_size g l u g' :
  x_u_split dataset labels num_labeled eval_step expand_labels batch_size g
    = Ok ((l, u), g') ->
  (forall j, j ∈ l -> j ∈ u) /\
  (0 < num_labeled -> exists j, j ∈ l /\ j ∈ u).
Proof.
  intros Hrun.
  apply x_u_split_inv in Hrun as (pre & g1 & ex & Hdraw & Hlen & Hex & Hp & ->).
  apply x_u_expand_Ok in Hex.
  assert (forall j, j ∈ l -> j ∈ seq 0 (length labels)) as Hsub.
  { intros j Hj. apply elem_of_seq. split; [lia|]. simpl.
    apply (x_u_draw_in_range _ _ _ _ _ _ j Hdraw).
    rewrite Hp in Hj.
    destruct (expand_labels || (num_labeled <? batch_size)).
    - destruct Hex as (_ & _ & ->). by eapply elem_of_concat_replicate.
    - by subst ex. }
  split; [exact Hsub|]. intros Hpos.
  assert (0 < length l)%nat as Hne.
  { rewrite (Permutation_length Hp).
    destruct (expand_labels || (num_labeled <? batch_size)).
    - destruct Hex as (_ & Hq & ->). rewrite length_concat_replicate. nia.
    - subst ex. lia. }
  destruct l as [|j l']; [simpl in Hne; lia|].
  exists j. split; [left | apply Hsub; left].
Qed.

Lemma x_u_split_labeled_in_unlabeled_witness :
  exists l u g',
    x_u_split "cifar10" (ten_labels ++ ten_labels) 10 2 true 5 rng_count
      = Ok ((l, u), g') /\
    (forall j, j ∈ l -> j ∈ u) /\
    (0 < 10 -> exists j, j ∈ l /\ j ∈ u).
Proof.
  do 3 eexists. split; [vm_compute; reflexivity|].
  eapply (x_u_split_labeled_in_unlabeled "cifar10" (ten_labels ++ ten_labels)
           10 2 true 5 rng_count _ _ _).
  vm_compute; reflexivity.
Defined.

(** C9 as stated fails for an empty budget: with [num_labeled = 0],
    [expand_labels] off and [batch_size = 0] the labelled list comes back
    empty, so the two index sets share no index. *)
Lemma x_u_split_labeled_in_unlabeled_counterexample :
  run (x_u_split "cifar10" ten_labels 0 2 false 0) rng_zero
    = Ok ([], [0; 1; 2; 3; 4; 5; 6; 7; 8; 9]%nat) /\
  ~ exists j : nat, j ∈ @nil nat /\ j ∈ [0; 1; 2; 3; 4; 5; 6; 7; 8; 9]%nat.
Proof.
  split; [vm_compute; reflexivity|].
  intros (j & Hj & _). by apply elem_of_nil in Hj.
Qed.

Section VisionClaims.
Context `{TV : Torchvision}.

(** C3.  [TransformSSL.__call__] returns one view when the mode is
    ["test"] or ["casual"], two views when it is ["fixmatch"], and three
    views for every other mode. *)
Theorem TransformSSL_call_views (self : TransformSSL) (x : image) (g : rng) :
  num_views (TransformSSL_call self x g).1 =
    if bool_decide (mode self = "test" \/ mode self = "casual") then 1%nat
    else if bool_decide (mode self = "fixmatch") then 2%nat
    else 3%nat.
Proof.
  unfold TransformSSL_call.
  destruct (String.eqb_spec (mode self) "test") as [Ht|Ht].
  { rewrite bool_decide_eq_true_2 by (by left). done. }
  destruct (weak self x g) as [w g1].
  destruct (String.eqb_spec (mode self) "casual") as [Hc|Hc].
  { rewrite bool_decide_eq_true_2 by (by right). done. }
  rewrite bool_decide_eq_false_2 by (by intros [?|?]).
  destruct (strong1 self x g1) as [s1 g2].
  destruct (String.eqb_spec (mode self) "fixmatch") as [Hf|Hf].
  { by rewrite bool_decide_eq_true_2. }
  rewrite bool_decide_eq_false_2 by done.
  by destruct (strong2 self x g2).
Qed.

Lemma MAP_DATASET_unknown dataset :
  dataset <> "cifar10" -> dataset <> "cifar100" ->
  MAP_DATASET !! dataset = None.
Proof.
  intros H10 H100. unfold MAP_DATASET.
  rewrite lookup_insert_ne by done. by rewrite lookup_insert_ne.
Qed.

(** C6.  For a dataset name other than ["cifar10"] and ["cifar100"],
    [x_u_split] raises [UnboundLocalError] because [num_classes] was
    never bound, the name is missing from [MAP_DATASET], and
    [get_train_dataset] raises the [KeyError] of that lookup (or, for a
    mode it does not accept, the [AssertionError] that precedes it). *)
Theorem unknown_dataset_fails (dataset : string) :
  dataset <> "cifar10" -> dataset <> "cifar100" ->
  (forall labels num_labeled eval_step expand_labels batch_size g,
     x_u_split dataset labels num_labeled eval_step expand_labels
       batch_size g = Raise UnboundLocalError) /\
  MAP_DATASET !! dataset = None /\
  (forall data_path mode num_labeled batch_size eval_step expand_labels g,
     get_train_dataset data_path dataset mode num_labeled batch_size
       eval_step expand_labels g
     = Raise (if existsb (String.eqb mode) ["fixmatch"; "comatch"]
              then KeyError else AssertionError)).
Proof.
  intros H10 H100. split; [|split].
  - intros. unfold x_u_split, x_u_draw, bind, lift, num_classes_of.
    apply String.eqb_neq in H10, H100. by rewrite H10, H100.
  - by apply MAP_DATASET_unknown.
  - intros data_path md nl bs es el g.
    unfold get_train_dataset, bind, lift, py_assert, dict_getitem.
    destruct (existsb (String.eqb md) ["fixmatch"; "comatch"]); [|done].
    by rewrite MAP_DATASET_unknown.
Qed.

(** C8.  [get_train_dataset] raises [AssertionError] for every mode other
    than ["fixmatch"] and ["comatch"]; the modes ["casual"] and ["test"]
    of [TransformSSL] are among the rejected ones. *)
Theorem get_train_dataset_rejects_mode data_path dataset (mode : string)
    num_labeled batch_size eval_step expand_labels g :
  mode <> "fixmatch" -> mode <> "comatch" ->
  get_train_dataset data_path dataset mode num_labeled batch_size eval_step
    expand_labels g = Raise AssertionError.
Proof.
  intros Hf Hc. unfold get_train_dataset, bind, lift, py_assert.
  apply String.eqb_neq in Hf, Hc. cbn [existsb]. by rewrite Hf, Hc.
Qed.

Lemma select_indexs_Ok (self ds : Dataset) indexs :
  select_indexs self (Some indexs) = Ok ds ->
  Forall2 (fun k x => np_getitem (data self) k = Ok x) indexs (data ds) /\
  Forall2 (fun k t => np_getitem (targets self) k = Ok t) indexs (targets ds).
Proof.
  unfold select_indexs.
  destruct (np_fancy (data self) indexs) as [d|] eqn:Hd; [|discriminate].
  destruct (np_fancy (targets self) indexs) as [t|] eqn:Ht; [|discriminate].
  cbn [rbind]. intros [= <-]. cbn [data targets].
  split; by apply np_fancy_Ok.
Qed.

(** C10.  For [CIFAR10SSL] and [CIFAR100SSL] built with an index list,
    entry [i] of the resulting data is the base data at position
    [indexs[i]] and entry [i] of the resulting targets is the base target
    at [indexs[i]] (a negative index counts from the end); both arrays
    have length [len(indexs)], so duplicate indices give duplicate
    samples. *)
Theorem SSL_init_selects (hundred : bool) root indexs train transform
    download (ds : Dataset) :
  (if hundred then CIFAR100SSL_init else CIFAR10SSL_init)
    root (Some indexs) train transform download = Ok ds ->
  exists base_data base_targets,
    (if hundred then datasets_CIFAR100 else datasets_CIFAR10)
      root train download = Ok (base_data, base_targets) /\
    length (data ds) = length indexs /\
    length (targets ds) = length indexs /\
    forall (i : nat) (k : Z), indexs !! i = Some k ->
      exists x t,
        data ds !! i = Some x /\
        targets ds !! i = Some t /\
        base_data !! Z.to_nat
          (if 0 <=? k then k else k + Z.of_nat (length base_data)) = Some x /\
        base_targets !! Z.to_nat
          (if 0 <=? k then k else k + Z.of_nat (length base_targets))
          = Some t.
Proof.
  intros Hinit.
  assert (exists base,
            (if hundred then datasets_CIFAR100 else datasets_CIFAR10)
              root train download = Ok base /\
            select_indexs {| data := base.1; targets := base.2;
                             transform := transform |} (Some indexs) = Ok ds)
    as ([bd bt] & Hload & Hsel).
  { destruct hundred;
      unfold CIFAR100SSL_init, CIFAR100_init, CIFAR10SSL_init, CIFAR10_init
        in Hinit.
    - destruct (datasets_CIFAR100 root train download) as [base|];
        [by exists base | discriminate].
    - destruct (datasets_CIFAR10 root train download) as [base|];
        [by exists base | discriminate]. }
  apply select_indexs_Ok in Hsel as [Hd Ht]. cbn [data targets fst snd] in *.
  exists bd, bt. split; [done|].
  split; [symmetry; by eapply Forall2_length|].
  split; [symmetry; by eapply Forall2_length|].
  intros i k Hk.
  destruct (Forall2_lookup_l _ _ _ _ _ Hd Hk) as (x & Hx & Hgx).
  destruct (Forall2_lookup_l _ _ _ _ _ Ht Hk) as (t & Htt & Hgt).
  exists x, t. split; [done|]. split; [done|].
  apply np_getitem_Ok in Hgx, Hgt. split.
  - destruct Hgx as [[Hr Hl]|[Hr Hl]].
    + by rewrite (proj2 (Z.leb_le 0 k)) by lia.
    + by rewrite (proj2 (Z.leb_gt 0 k)) by lia.
  - destruct Hgt as [[Hr Hl]|[Hr Hl]].
    + by rewrite (proj2 (Z.leb_le 0 k)) by lia.
    + by rewrite (proj2 (Z.leb_gt 0 k)) by lia.
Qed.

End VisionClaims.

Lemma unknown_dataset_fails_witness :
  "mnist" <> "cifar10" /\ "mnist" <> "cifar100" /\
  x_u_split "mnist" ten_labels 10 2 true 10 rng_zero
    = Raise UnboundLocalError /\
  MAP_DATASET (TV := toy_vision) !! "mnist" = None /\
  get_train_dataset (TV := toy_vision) "./data" "mnist" "fixmatch" 10 10 2
    true rng_zero = Raise KeyError.
Proof.
  assert ("mnist" <> "cifar10") as H10 by discriminate.
  assert ("mnist" <> "cifar100") as H100 by discriminate.
  destruct (unknown_dataset_fails (TV := toy_vision) "mnist" H10 H100)
    as (Hsplit & Hmap & Hget).
  split; [exact H10|]. split; [exact H100|].
  split; [apply Hsplit|]. split; [exact Hmap|].
  exact (Hget "./data" "fixmatch" 10 10 2 true rng_zero).
Defined.

Lemma get_train_dataset_rejects_mode_witness :
  "casual" <> "fixmatch" /\ "casual" <> "comatch" /\
  get_train_dataset (TV := toy_vision) "./data" "cifar10" "casual" 10 5 2
    false rng_count = Raise AssertionError.
Proof.
  split; [discriminate|]. split; [discriminate|].
  apply (get_train_dataset_rejects_mode (TV := toy_vision));
    discriminate.
Defined.

Lemma SSL_init_selects_witness :
  exists ds,
    CIFAR10SSL_init (TV := toy_vision) "./data" (Some [0; -1; 3; 3]) true
      None false = Ok ds /\
    exists base_data base_targets,
      toy_load "./data" true false = Ok (base_data, base_targets) /\
      length (data ds) = 4%nat /\
      length (targets ds) = 4%nat /\
      forall (i : nat) (k : Z), [0; -1; 3; 3] !! i = Some k ->
        exists x t,
          data ds !! i = Some x /\
          targets ds !! i = Some t /\
          base_data !! Z.to_nat
            (if 0 <=? k then k else k + Z.of_nat (length base_data))
            = Some x /\
          base_targets !! Z.to_nat
            (if 0 <=? k then k else k + Z.of_nat (length base_targets))
            = Some t.
Proof.
  eexists. split; [vm_compute; reflexivity|].
  eapply (SSL_init_selects (TV := toy_vision) false "./data" [0; -1; 3; 3]
            true None false).
  vm_compute; reflexivity.
Defined.

(** The remaining modes on the toy library. *)
Example get_train_dataset_rejects_test :
  get_train_dataset (TV := toy_vision) "./data" "cifar10" "test" 10 5 2
    false rng_count = Raise AssertionError.
Proof. reflexivity. Qed.

Example comatch_gives_three_views :
  (TransformSSL_call (toy_transform "comatch") 100%nat rng_zero).1
    = View3 (TV := toy_vision) 200%nat 200%nat 200%nat.
Proof. vm_compute. reflexivity. Qed.

Example SSL_init_selects_from_the_end :
  exists ds,
    CIFAR10SSL_init (TV := toy_vision) "./data" (Some [0; -1; 3; 3]) true
      None false = Ok ds /\
    data ds = [100; 119; 103; 103]%nat /\
    targets ds = [0; 9; 3; 3].
Proof. eexists. split; [vm_compute; reflexivity|]. by split. Qed.

(** * Further properties of [x_u_split] *)

Lemma num_classes_of_cases dataset nc :
  num_classes_of dataset = Ok nc -> nc = 10 \/ nc = 100.
Proof.
  unfold num_classes_of.
  destruct (String.eqb dataset "cifar10"); [intros [= <-]; by left|].
  destruct (String.eqb dataset "cifar100"); [intros [= <-]; by right|].
  discriminate.
Qed.

Lemma enough_classes labels lpc nc :
  0 < nc ->
  Forall (enough labels lpc) (seqZ 0 nc) <->
  0 <= lpc /\
  forall i, 0 <= i < nc -> lpc <= Z.of_nat (count_occ Z.eq_dec labels i).
Proof.
  intros Hnc. rewrite Forall_forall. unfold enough. split.
  - intros Hall. split.
    + apply (Hall 0). apply elem_of_seqZ. lia.
    + intros i Hi. apply Hall. apply elem_of_seqZ. lia.
  - intros [Hlo Hall] i Hi%elem_of_seqZ. split; [done|]. apply Hall. lia.
Qed.

Lemma chunks_length labels lpc classes chunks :
  Forall2 (class_chunk labels lpc) classes chunks ->
  Z.of_nat (length (concat chunks)) = Z.of_nat (length classes) * lpc.
Proof.
  induction 1 as [|i chunk classes chunks (Hlen & _) _ IH]; [done|].
  cbn [concat length]. rewrite length_app. lia.
Qed.

Lemma x_u_draw_length dataset labels nl pre g g' :
  x_u_draw dataset labels nl g = Ok (pre, g') ->
  exists nc, num_classes_of dataset = Ok nc /\
             Z.of_nat (length pre) = nc * (nl / nc).
Proof.
  intros Hrun.
  apply x_u_draw_inv in Hrun as (nc & chunks & Hnc & _ & -> & Hchunks).
  exists nc. split; [done|].
  rewrite (chunks_length _ _ _ _ Hchunks), length_seqZ.
  destruct (num_classes_of_cases _ _ Hnc); lia.
Qed.

Lemma x_u_split_intro dataset labels nl es el bs g pre g1 ex :
  x_u_draw dataset labels nl g = Ok (pre, g1) ->
  Z.of_nat (length pre) = nl ->
  x_u_expand nl es el bs pre = Ok ex ->
  exists l g',
    x_u_split dataset labels nl es el bs g
      = Ok ((l, seq 0 (length labels)), g') /\ l ≡ₚ ex.
Proof.
  intros Hdraw Hlen Hex.
  destruct (np_random_shuffle_spec ex g1) as (l & g' & Hsh & Hp).
  exists l, g'. split; [|done]. unfold x_u_split.
  apply bind_Ok. exists pre, g1. split; [done|].
  apply bind_Ok. exists tt, g1. split.
  { apply lift_Ok. split; [|done]. apply py_assert_Ok. by apply Z.eqb_eq. }
  apply bind_Ok. exists ex, g1. split; [by apply lift_Ok|].
  apply bind_Ok. exists l, g'. by split.
Qed.

Lemma ceil_quot_pos a b : 0 < b -> (0 < ceil_quot a b <-> 0 < a).
Proof. intros Hb. pose proof (ceil_quot_is_ceiling a b Hb). nia. Qed.

Lemma float_overflow_small a b :
  Z.abs a < 2 ^ 53 -> b <> 0 -> float_overflow a b = false.
Proof.
  intros Ha Hb. unfold float_overflow. apply Z.leb_gt.
  assert (2 ^ 53 <= 2 ^ 1024 - 2 ^ 970) as Hc by (vm_compute; discriminate).
  set (c := 2 ^ 1024 - 2 ^ 970) in *. set (d := 2 ^ 53) in *.
  clearbody c d. assert (1 <= Z.abs b) by lia. nia.
Qed.

Lemma ceil_div_small a b :
  Z.abs a < 2 ^ 53 -> b <> 0 -> ceil_div a b = Ok (ceil_quot a b).
Proof.
  intros Ha Hb. unfold ceil_div.
  destruct (Z.eqb_spec b 0); [done|]. by rewrite float_overflow_small.
Qed.

(** X1.  For magnitudes at which the float quotient of line 103 is exact
    ([|batch_size * eval_step| < 2^53], [num_labeled < 2^53]),
    [x_u_split] returns a result exactly when the dataset name is known,
    the budget is a non-negative multiple of the number of classes, every
    class holds at least [num_labeled // num_classes] samples and, if the
    list is to be expanded, the budget and [batch_size * eval_step] are
    positive. *)
Theorem x_u_split_returns_iff dataset labels num_labeled eval_step
    expand_labels batch_size g :
  Z.abs (batch_size * eval_step) < 2 ^ 53 ->
  num_labeled < 2 ^ 53 ->
  (exists r, x_u_split dataset labels num_labeled eval_step expand_labels
               batch_size g = Ok r) <->
  exists num_classes,
    num_classes_of dataset = Ok num_classes /\
    0 <= num_labeled /\
    num_labeled `mod` num_classes = 0 /\
    (forall i, 0 <= i < num_classes ->
       num_labeled / num_classes
         <= Z.of_nat (count_occ Z.eq_dec labels i)) /\
    (expand_labels || (num_labeled <? batch_size) = true ->
       0 < num_labeled /\ 0 < batch_size * eval_step).
Proof.
  intros Hsmall _. split.
  - intros ([[l u] g'] & Hrun).
    apply x_u_split_inv in Hrun
      as (pre & g1 & ex & Hdraw & Hlen & Hex & _ & _).
    destruct (x_u_draw_length _ _ _ _ _ _ Hdraw) as (nc & Hnc & Hlen').
    apply x_u_draw_inv in Hdraw as (nc' & _ & Hnc' & Hall & _).
    assert (nc' = nc) as -> by congruence.
    assert (0 < nc) as Hpos by (destruct (num_classes_of_cases _ _ Hnc); lia).
    apply enough_classes in Hall as [_ Hall]; [|done].
    exists nc. split; [done|]. split; [lia|].
    split; [|split; [done|]].
    + pose proof (Z.div_mod num_labeled nc). lia.
    + intros Hexp. apply x_u_expand_Ok in Hex. rewrite Hexp in Hex.
      destruct Hex as (Hnz & Hq & _).
      assert (0 < num_labeled) as Hnl by lia.
      split; [done|]. by apply (ceil_quot_pos _ _ Hnl).
  - intros (nc & Hnc & Hnn & Hmod & Hall & Hexp).
    assert (0 < nc) as Hpos by (destruct (num_classes_of_cases _ _ Hnc); lia).
    assert (nc * (num_labeled / nc) = num_labeled) as Hmul.
    { pose proof (Z.div_mod num_labeled nc). lia. }
    destruct (x_u_draw_enough dataset labels num_labeled nc g Hnc)
      as (pre & g1 & Hdraw).
    { apply enough_classes; [done|]. split; [|done].
      by apply Z.div_pos. }
    destruct (x_u_draw_length _ _ _ _ _ _ Hdraw) as (nc' & Hnc' & Hlen).
    assert (nc' = nc) as -> by congruence. rewrite Hmul in Hlen.
    assert (exists ex, x_u_expand num_labeled eval_step expand_labels
                         batch_size pre = Ok ex) as [ex Hex].
    { unfold x_u_expand, np_hstack_copies.
      destruct (expand_labels || (num_labeled <? batch_size)); [|by eexists].
      destruct Hexp as [Hnl Hq]; [done|].
      rewrite ceil_div_small by (done || lia). cbn [rbind].
      apply (ceil_quot_pos _ _ Hnl) in Hq.
      destruct (Z.leb_spec (ceil_quot (batch_size * eval_step) num_labeled) 0);
        [lia | by eexists]. }
    destruct (x_u_split_intro _ _ _ _ _ _ _ _ _ _ Hdraw Hlen Hex)
      as (l & g' & Hrun & _).
    by eexists.
Qed.

Lemma x_u_split_witness_classes :
  forall i, 0 <= i < 10 ->
    10 / 10 <= Z.of_nat (count_occ Z.eq_dec ten_labels i).
Proof.
  intros i Hi.
  assert (i = 0 \/ i = 1 \/ i = 2 \/ i = 3 \/ i = 4 \/ i = 5 \/ i = 6 \/
          i = 7 \/ i = 8 \/ i = 9) as Hcases by lia.
  repeat (destruct Hcases as [->|Hcases]; [vm_compute; discriminate|]).
  subst i. vm_compute; discriminate.
Qed.

Lemma x_u_split_returns_iff_witness :
  (exists r, x_u_split "cifar10" ten_labels 10 2 true 10 rng_zero = Ok r) <->
  exists num_classes,
    num_classes_of "cifar10" = Ok num_classes /\
    0 <= 10 /\
    10 `mod` num_classes = 0 /\
    (forall i, 0 <= i < num_classes ->
       10 / num_classes <= Z.of_nat (count_occ Z.eq_dec ten_labels i)) /\
    (true || (10 <? 10) = true -> 0 < 10 /\ 0 < 10 * 2).
Proof.
  apply (x_u_split_returns_iff "cifar10" ten_labels 10 2 true 10 rng_zero);
    vm_compute; reflexivity.
Defined.

(** What the code does once the draw of lines 86-99 has succeeded. *)
Lemma x_u_split_after_draw dataset labels nl es el bs g pre g1 :
  x_u_draw dataset labels nl g = Ok (pre, g1) ->
  x_u_split dataset labels nl es el bs g =
    if Z.of_nat (length pre) =? nl then
      match x_u_expand nl es el bs pre with
      | Ok ex =>
          match np_random_shuffle ex g1 with
          | Ok (l, g') => Ok ((l, seq 0 (length labels)), g')
          | Raise e => Raise e
          end
      | Raise e => Raise e
      end
    else Raise AssertionError.
Proof.
  intros Hdraw. unfold x_u_split, bind at 1. rewrite Hdraw.
  unfold bind, lift, py_assert, ret.
  destruct (Z.of_nat (length pre) =? nl); [|done].
  destruct (x_u_expand nl es el bs pre) as [ex|]; [|done].
  by destruct (np_random_shuffle ex g1) as [[l g']|].
Qed.

(** X2.  A budget that is not a multiple of the number of classes trips
    the assertion of line 100, provided every class holds enough samples
    for the draw to get that far. *)
Theorem x_u_split_budget_not_multiple dataset labels num_labeled eval_step
    expand_labels batch_size num_classes g :
  num_classes_of dataset = Ok num_classes ->
  0 <= num_labeled ->
  (forall i, 0 <= i < num_classes ->
     num_labeled / num_classes <= Z.of_nat (count_occ Z.eq_dec labels i)) ->
  num_labeled `mod` num_classes <> 0 ->
  x_u_split dataset labels num_labeled eval_step expand_labels batch_size g
    = Raise AssertionError.
Proof.
  intros Hnc Hnn Hall Hmod.
  assert (0 < num_classes) as Hpos
    by (destruct (num_classes_of_cases _ _ Hnc); lia).
  destruct (x_u_draw_enough dataset labels num_labeled num_classes g Hnc)
    as (pre & g1 & Hdraw).
  { apply enough_classes; [done|]. split; [by apply Z.div_pos | done]. }
  rewrite (x_u_split_after_draw _ _ _ _ _ _ _ _ _ Hdraw).
  destruct (x_u_draw_length _ _ _ _ _ _ Hdraw) as (nc' & Hnc' & Hlen).
  assert (nc' = num_classes) as -> by congruence.
  destruct (Z.eqb_spec (Z.of_nat (length pre)) num_labeled) as [Heq|]; [|done].
  pose proof (Z.div_mod num_labeled num_classes). lia.
Qed.

Lemma x_u_split_budget_not_multiple_witness :
  x_u_split "cifar10" (ten_labels ++ ten_labels) 15 2 true 5 rng_count
    = Raise AssertionError.
Proof.
  apply (x_u_split_budget_not_multiple "cifar10" (ten_labels ++ ten_labels)
           15 2 true 5 10 rng_count).
  - reflexivity.
  - lia.
  - intros i Hi. change (15 / 10) with (10 / 10). rewrite count_occ_app.
    pose proof (x_u_split_witness_classes i Hi). lia.
  - vm_compute; discriminate.
Defined.

(** X3.  With a budget of zero the draw succeeds on any labels, and the
    expansion step divides by zero: [ZeroDivisionError] whenever
    [expand_labels] is on or [batch_size] is positive. *)
Theorem x_u_split_zero_budget dataset labels eval_step expand_labels
    batch_size num_classes g :
  num_classes_of dataset = Ok num_classes ->
  expand_labels || (0 <? batch_size) = true ->
  x_u_split dataset labels 0 eval_step expand_labels batch_size g
    = Raise ZeroDivisionError.
Proof.
  intros Hnc Hexp.
  assert (0 < num_classes) as Hpos
    by (destruct (num_classes_of_cases _ _ Hnc); lia).
  destruct (x_u_draw_enough dataset labels 0 num_classes g Hnc)
    as (pre & g1 & Hdraw).
  { apply enough_classes; [done|]. rewrite Z.div_0_l by lia. split; lia. }
  rewrite (x_u_split_after_draw _ _ _ _ _ _ _ _ _ Hdraw).
  destruct (x_u_draw_length _ _ _ _ _ _ Hdraw) as (nc' & Hnc' & Hlen).
  rewrite Z.div_0_l, Z.mul_0_r in Hlen
    by (destruct (num_classes_of_cases _ _ Hnc'); lia).
  rewrite Hlen. cbn [Z.eqb]. unfold x_u_expand. by rewrite Hexp.
Qed.

Lemma x_u_split_zero_budget_witness :
  x_u_split "cifar100" [] 0 1024 true 128 rng_zero = Raise ZeroDivisionError.
Proof.
  apply (x_u_split_zero_budget "cifar100" [] 1024 true 128 100 rng_zero);
    reflexivity.
Defined.

(** X4.  When the list is to be expanded and [batch_size * eval_step]
    is not positive (and above [-2^53], so that the quotient of line 103
    stays within float range), the number of copies is not positive
    either and stacking an empty sequence of arrays raises
    [ValueError]. *)
Theorem x_u_split_no_copies dataset labels num_labeled eval_step
    expand_labels batch_size num_classes g :
  num_classes_of dataset = Ok num_classes ->
  0 < num_labeled ->
  num_labeled `mod` num_classes = 0 ->
  (forall i, 0 <= i < num_classes ->
     num_labeled / num_classes <= Z.of_nat (count_occ Z.eq_dec labels i)) ->
  expand_labels || (num_labeled <? batch_size) = true ->
  - 2 ^ 53 < batch_size * eval_step <= 0 ->
  x_u_split dataset labels num_labeled eval_step expand_labels batch_size g
    = Raise ValueError.
Proof.
  intros Hnc Hnl Hmod Hall Hexp Hprod.
  assert (0 < num_classes) as Hpos
    by (destruct (num_classes_of_cases _ _ Hnc); lia).
  destruct (x_u_draw_enough dataset labels num_labeled num_classes g Hnc)
    as (pre & g1 & Hdraw).
  { apply enough_classes; [done|]. split; [apply Z.div_pos; lia | done]. }
  rewrite (x_u_split_after_draw _ _ _ _ _ _ _ _ _ Hdraw).
  destruct (x_u_draw_length _ _ _ _ _ _ Hdraw) as (nc' & Hnc' & Hlen).
  assert (nc' = num_classes) as -> by congruence.
  assert (Z.of_nat (length pre) = num_labeled) as ->.
  { pose proof (Z.div_mod num_labeled num_classes). lia. }
  rewrite Z.eqb_refl. unfold x_u_expand, np_hstack_copies.
  rewrite Hexp, ceil_div_small by lia. cbn [rbind].
  pose proof (ceil_quot_pos (batch_size * eval_step) num_labeled Hnl).
  destruct (Z.leb_spec (ceil_quot (batch_size * eval_step) num_labeled) 0);
    [done | lia].
Qed.

Lemma x_u_split_no_copies_witness :
  x_u_split "cifar10" ten_labels 10 0 true 128 rng_count = Raise ValueError.
Proof.
  apply (x_u_split_no_copies "cifar10" ten_labels 10 0 true 128 10 rng_count).
  - reflexivity.
  - lia.
  - reflexivity.
  - exact x_u_split_witness_classes.
  - reflexivity.
  - split; [vm_compute; reflexivity | vm_compute; discriminate].
Defined.

(** X5.  A negative budget is refused by the first draw: [ValueError],
    whatever the labels. *)
Theorem x_u_split_negative_budget dataset labels num_labeled eval_step
    expand_labels batch_size num_classes g :
  num_classes_of dataset = Ok num_classes ->
  num_labeled < 0 ->
  x_u_split dataset labels num_labeled eval_step expand_labels batch_size g
    = Raise ValueError.
Proof.
  intros Hnc Hneg.
  assert (0 < num_classes) as Hpos
    by (destruct (num_classes_of_cases _ _ Hnc); lia).
  unfold x_u_split. apply bind_Raise. left.
  unfold x_u_draw. apply bind_Raise. right.
  exists num_classes, g. split; [by apply lift_Ok|].
  rewrite seqZ_cons by done. cbn [sample_classes].
  apply bind_Raise. left. apply np_random_choice_out_of_range. left.
  apply Z.div_lt_upper_bound; lia.
Qed.

Lemma x_u_split_negative_budget_witness :
  x_u_split "cifar10" ten_labels (-10) 2 false 5 rng_count = Raise ValueError.
Proof.
  apply (x_u_split_negative_budget "cifar10" ten_labels (-10) 2 false 5 10);
    [reflexivity | lia].
Defined.

(** X6.  The expansion reaches the target number of steps: when the list
    is expanded, the returned labelled list holds at least
    [batch_size * eval_step] indices, and fewer than one further copy of
    the budget beyond that. *)
Theorem x_u_split_expansion_covers_steps dataset labels num_labeled
    eval_step expand_labels batch_size g l u g' :
  x_u_split dataset labels num_labeled eval_step expand_labels batch_size g
    = Ok ((l, u), g') ->
  expand_labels || (num_labeled <? batch_size) = true ->
  batch_size * eval_step <= Z.of_nat (length l)
    < batch_size * eval_step + num_labeled.
Proof.
  intros Hrun Hexp.
  apply x_u_split_inv in Hrun as (pre & g1 & ex & _ & Hlen & Hex & Hp & _).
  apply x_u_expand_Ok in Hex. rewrite Hexp in Hex.
  destruct Hex as (Hnz & Hq & ->).
  rewrite (Permutation_length Hp), length_concat_replicate.
  assert (0 < num_labeled) as Hnl by lia.
  pose proof (ceil_quot_is_ceiling (batch_size * eval_step) num_labeled Hnl).
  nia.
Qed.

Lemma x_u_split_expansion_covers_steps_witness :
  exists l u g',
    x_u_split "cifar10" (ten_labels ++ ten_labels) 20 3 true 7 rng_count
      = Ok ((l, u), g') /\
    7 * 3 <= Z.of_nat (length l) < 7 * 3 + 20.
Proof.
  do 3 eexists. split; [vm_compute; reflexivity|].
  eapply (x_u_split_expansion_covers_steps "cifar10"
            (ten_labels ++ ten_labels) 20 3 true 7 rng_count).
  - vm_compute; reflexivity.
  - reflexivity.
Defined.

Lemma filter_concat_replicate {A} (P : A -> Prop) `{!forall x, Decision (P x)}
    n (x : list A) :
  length (filter P (concat (replicate n x)))
  = (n * length (filter P x))%nat.
Proof.
  induction n as [|n IH]; [done|]. cbn [replicate concat].
  rewrite filter_app, length_app, IH. lia.
Qed.

Lemma chunks_other_class labels lpc classes chunks i :
  Forall2 (class_chunk labels lpc) classes chunks ->
  i ∉ classes ->
  filter (fun j => labels !! j = Some i) (concat chunks) = [].
Proof.
  intros Hchunks Hi.
  destruct (filter _ (concat chunks)) as [|j rest] eqn:Hf; [done|].
  assert (j ∈ filter (fun j => labels !! j = Some i) (concat chunks)) as Hj
    by (rewrite Hf; left).
  apply list_elem_of_filter in Hj as [Hlab Hj].
  destruct (chunk_member_class _ _ _ _ _ Hchunks Hj) as (i' & Hi' & Hl).
  congruence.
Qed.

Lemma chunks_class_count labels lpc classes chunks i :
  NoDup classes ->
  Forall2 (class_chunk labels lpc) classes chunks ->
  i ∈ classes ->
  Z.of_nat (length (filter (fun j => labels !! j = Some i) (concat chunks)))
  = lpc.
Proof.
  intros Hnd Hchunks. revert Hnd.
  induction Hchunks as [|c chunk classes chunks Hchunk Hrest IH];
    intros Hnd Hi; [by apply elem_of_nil in Hi|].
  apply NoDup_cons in Hnd as [Hfresh Hnd].
  cbn [concat]. rewrite filter_app, length_app.
  destruct Hchunk as (Hlen & _ & Hlab).
  destruct (decide (i = c)) as [->|Hne].
  - rewrite (chunks_other_class _ _ _ _ _ Hrest Hfresh).
    assert (filter (fun j => labels !! j = Some c) chunk = chunk) as ->.
    { clear -Hlab. induction Hlab as [|j chunk Hj _ IH]; [done|].
      rewrite filter_cons, decide_True by done. by rewrite IH. }
    cbn [length]. lia.
  - apply elem_of_cons in Hi as [?|Hi]; [done|].
    assert (filter (fun j => labels !! j = Some i) chunk = []) as ->.
    { clear -Hlab Hne. induction Hlab as [|j chunk Hj _ IH]; [done|].
      rewrite filter_cons, decide_False by congruence. exact IH. }
    cbn [length]. rewrite Nat.add_0_l. by apply IH.
Qed.

(** X7.  The returned labelled list is balanced: every class
    [i < num_classes] is carried by exactly [num_labeled // num_classes]
    of its indices per copy, that is by
    [ceil(batch_size * eval_step / num_labeled) * (num_labeled // num_classes)]
    indices when the list is expanded. *)
Theorem x_u_split_class_balance dataset labels num_labeled eval_step
    expand_labels batch_size g l u g' num_classes i :
  x_u_split dataset labels num_labeled eval_step expand_labels batch_size g
    = Ok ((l, u), g') ->
  num_classes_of dataset = Ok num_classes ->
  0 <= i < num_classes ->
  Z.of_nat (length (filter (fun j => labels !! j = Some i) l)) =
    (if expand_labels || (num_labeled <? batch_size)
     then ceil_quot (batch_size * eval_step) num_labeled else 1)
    * (num_labeled / num_classes).
Proof.
  intros Hrun Hnc Hi.
  apply x_u_split_inv in Hrun as (pre & g1 & ex & Hdraw & _ & Hex & Hp & _).
  apply x_u_draw_inv in Hdraw as (nc & chunks & Hnc' & _ & -> & Hchunks).
  assert (nc = num_classes) as -> by congruence.
  assert (i ∈ seqZ 0 num_classes) as Hin by (apply elem_of_seqZ; lia).
  pose proof (chunks_class_count _ _ _ _ i (NoDup_seqZ _ _) Hchunks Hin)
    as Hcount.
  rewrite Hp. apply x_u_expand_Ok in Hex.
  destruct (expand_labels || (num_labeled <? batch_size)).
  - destruct Hex as (_ & Hq & ->). rewrite filter_concat_replicate. nia.
  - subst ex. lia.
Qed.

Lemma x_u_split_class_balance_witness :
  exists l u g',
    x_u_split "cifar10" (ten_labels ++ ten_labels) 20 3 true 7 rng_count
      = Ok ((l, u), g') /\
    Z.of_nat (length (filter
                (fun j => (ten_labels ++ ten_labels) !! j = Some 4) l))
      = ceil_quot (7 * 3) 20 * (20 / 10).
Proof.
  do 3 eexists. split; [vm_compute; reflexivity|].
  eapply (x_u_split_class_balance "cifar10" (ten_labels ++ ten_labels)
            20 3 true 7 rng_count _ _ _ 10 4).
  - vm_compute; reflexivity.
  - reflexivity.
  - lia.
Defined.

(** X8.  Without expansion ([expand_labels] off and
    [num_labeled >= batch_size]) no index is returned twice. *)
Theorem x_u_split_distinct_without_expansion dataset labels num_labeled
    eval_step expand_labels batch_size g l u g' :
  x_u_split dataset labels num_labeled eval_step expand_labels batch_size g
    = Ok ((l, u), g') ->
  expand_labels || (num_labeled <? batch_size) = false ->
  NoDup l.
Proof.
  intros Hrun Hexp.
  apply x_u_split_inv in Hrun as (pre & g1 & ex & Hdraw & _ & Hex & Hp & _).
  apply x_u_expand_Ok in Hex. rewrite Hexp in Hex. subst ex.
  rewrite Hp.
  apply x_u_draw_inv in Hdraw as (nc & chunks & _ & _ & -> & Hchunks).
  eapply chunks_NoDup; [apply NoDup_seqZ | exact Hchunks].
Qed.

Lemma x_u_split_distinct_without_expansion_witness :
  exists l u g',
    x_u_split "cifar10" (ten_labels ++ ten_labels) 20 3 false 7 rng_count
      = Ok ((l, u), g') /\ NoDup l.
Proof.
  do 3 eexists. split; [vm_compute; reflexivity|].
  eapply (x_u_split_distinct_without_expansion "cifar10"
            (ten_labels ++ ten_labels) 20 3 false 7 rng_count).
  - vm_compute; reflexivity.
  - reflexivity.
Defined.

(** X9.  Only samples of the classes [0 .. num_classes - 1] are ever
    selected as labelled: every returned labelled index carries a label
    in that range. *)
Theorem x_u_split_labeled_classes dataset labels num_labeled eval_step
    expand_labels batch_size g l u g' num_classes :
  x_u_split dataset labels num_labeled eval_step expand_labels batch_size g
    = Ok ((l, u), g') ->
  num_classes_of dataset = Ok num_classes ->
  forall j, j ∈ l ->
    exists i, 0 <= i < num_classes /\ labels !! j = Some i.
Proof.
  intros Hrun Hnc j Hj.
  apply x_u_split_inv in Hrun as (pre & g1 & ex & Hdraw & _ & Hex & Hp & _).
  apply x_u_draw_inv in Hdraw as (nc & chunks & Hnc' & _ & -> & Hchunks).
  assert (nc = num_classes) as -> by congruence.
  assert (j ∈ concat chunks) as Hpre.
  { rewrite Hp in Hj. apply x_u_expand_Ok in Hex.
    destruct (expand_labels || (num_labeled <? batch_size)).
    - destruct Hex as (_ & _ & ->). by eapply elem_of_concat_replicate.
    - by subst ex. }
  destruct (chunk_member_class _ _ _ _ _ Hchunks Hpre) as (i & Hi & Hl).
  exists i. split; [|done]. apply elem_of_seqZ in Hi. lia.
Qed.

Lemma x_u_split_labeled_classes_witness :
  exists l u g',
    x_u_split "cifar10" (ten_labels ++ [10; 11; -1] ++ ten_labels) 20 3
      true 7 rng_count = Ok ((l, u), g') /\
    forall j, j ∈ l ->
      exists i, 0 <= i < 10 /\
                (ten_labels ++ [10; 11; -1] ++ ten_labels) !! j = Some i.
Proof.
  do 3 eexists. split; [vm_compute; reflexivity|].
  eapply (x_u_split_labeled_classes "cifar10"
            (ten_labels ++ [10; 11; -1] ++ ten_labels) 20 3 true 7
            rng_count).
  - vm_compute; reflexivity.
  - reflexivity.
Defined.

(** * Further properties of indexing and of the dataset classes *)

Lemma np_getitem_nat {A} (a : list A) (j : nat) x :
  np_getitem a (Z.of_nat j) = Ok x <-> a !! j = Some x.
Proof.
  rewrite np_getitem_Ok, Nat2Z.id. split.
  - intros [[_ ?]|[? _]]; [done | lia].
  - intros Hj. left. split; [|done]. apply lookup_lt_Some in Hj. lia.
Qed.

Lemma np_getitem_in_bounds {A} (a : list A) k :
  - Z.of_nat (length a) <= k < Z.of_nat (length a) ->
  exists x, np_getitem a k = Ok x.
Proof.
  intros Hk. destruct (decide (0 <= k)) as [Hnn|Hneg].
  - destruct (lookup_lt_is_Some_2 a (Z.to_nat k)) as [x Hx]; [lia|].
    exists x. apply np_getitem_Ok. left. split; [lia | done].
  - destruct (lookup_lt_is_Some_2 a (Z.to_nat (k + Z.of_nat (length a))))
      as [x Hx]; [lia|].
    exists x. apply np_getitem_Ok. right. split; [lia | done].
Qed.

Lemma np_getitem_out_of_bounds {A} (a : list A) k :
  k < - Z.of_nat (length a) \/ Z.of_nat (length a) <= k ->
  np_getitem a k = Raise IndexError.
Proof.
  intros Hk. unfold np_getitem, np_index.
  destruct (Z.leb_spec 0 k), (Z.ltb_spec k (Z.of_nat (length a)));
    cbn [andb]; try lia;
    destruct (Z.leb_spec (- Z.of_nat (length a)) k), (Z.ltb_spec k 0);
    cbn [andb rbind]; try lia; done.
Qed.

Lemma np_fancy_in_bounds {A} (a : list A) indexs :
  Forall (fun k => - Z.of_nat (length a) <= k < Z.of_nat (length a)) indexs ->
  exists xs, np_fancy a indexs = Ok xs.
Proof.
  induction 1 as [|k rest Hk _ [xs IH]]; cbn [np_fancy]; [by eexists|].
  destruct (np_getitem_in_bounds a k Hk) as [x ->]. cbn [rbind].
  rewrite IH. cbn [rbind]. by eexists.
Qed.

Lemma np_fancy_out_of_bounds {A} (a : list A) indexs :
  Exists (fun k => k < - Z.of_nat (length a) \/ Z.of_nat (length a) <= k)
    indexs ->
  np_fancy a indexs = Raise IndexError.
Proof.
  induction 1 as [k rest Hk|k rest _ IH]; cbn [np_fancy].
  - by rewrite (np_getitem_out_of_bounds a k Hk).
  - destruct (np_getitem a k) as [x|e] eqn:Hx; cbn [rbind].
    + by rewrite IH.
    + destruct (decide (- Z.of_nat (length a) <= k < Z.of_nat (length a)))
        as [Hin|Hout].
      * destruct (np_getitem_in_bounds a k Hin) as [? ?]. congruence.
      * rewrite np_getitem_out_of_bounds in Hx by lia. congruence.
Qed.

Lemma np_fancy_nat_intro {A} (a : list A) (js : list nat) xs :
  Forall2 (fun j x => a !! j = Some x) js xs ->
  np_fancy a (Z.of_nat <$> js) = Ok xs.
Proof.
  induction 1 as [|j x js xs Hj _ IH]; [done|].
  cbn [fmap list_fmap np_fancy].
  apply np_getitem_nat in Hj. rewrite Hj. cbn [rbind].
  change (list_fmap nat Z Z.of_nat js) with (Z.of_nat <$> js).
  by rewrite IH.
Qed.

Lemma np_fancy_arange {A} (a : list A) :
  np_fancy a (Z.of_nat <$> seq 0 (length a)) = Ok a.
Proof.
  apply np_fancy_nat_intro. apply Forall2_same_length_lookup. split.
  - by rewrite length_seq.
  - intros i j x Hj Hx. apply lookup_seq in Hj as [-> _]. done.
Qed.

Section DatasetProperties.
Context `{TV : Torchvision}.

Lemma SSL_init_unfold (hundred : bool) root indexs train transform download :
  (if hundred then CIFAR100SSL_init else CIFAR10SSL_init)
    root indexs train transform download
  = match (if hundred then datasets_CIFAR100 else datasets_CIFAR10)
            root train download with
    | Ok base =>
        select_indexs {| data := base.1; targets := base.2;
                         transform := transform |} indexs
    | Raise e => Raise e
    end.
Proof.
  destruct hundred;
    unfold CIFAR100SSL_init, CIFAR100_init, CIFAR10SSL_init, CIFAR10_init.
  - by destruct (datasets_CIFAR100 root train download).
  - by destruct (datasets_CIFAR10 root train download).
Qed.

(** X10.  Bounds of the index list.  Once the base dataset has loaded,
    [CIFAR10SSL] and [CIFAR100SSL] are built whenever every index lies in
    [-n, n) for both base arrays, and raise [IndexError] as soon as one
    index falls outside the range of the data array. *)
Theorem SSL_init_index_bounds (hundred : bool) root indexs train transform
    download base_data base_targets :
  (if hundred then datasets_CIFAR100 else datasets_CIFAR10)
    root train download = Ok (base_data, base_targets) ->
  length base_data = length base_targets ->
  (Forall (fun k => - Z.of_nat (length base_data) <= k
                      < Z.of_nat (length base_data)) indexs ->
   exists ds,
     (if hundred then CIFAR100SSL_init else CIFAR10SSL_init)
       root (Some indexs) train transform download = Ok ds) /\
  (Exists (fun k => k < - Z.of_nat (length base_data) \/
                    Z.of_nat (length base_data) <= k) indexs ->
   (if hundred then CIFAR100SSL_init else CIFAR10SSL_init)
     root (Some indexs) train transform download = Raise IndexError).
Proof.
  intros Hload Hlen. rewrite SSL_init_unfold, Hload.
  unfold select_indexs. cbn [data targets fst snd]. split.
  - intros Hall.
    destruct (np_fancy_in_bounds base_data indexs Hall) as [d ->].
    rewrite Hlen in Hall.
    destruct (np_fancy_in_bounds base_targets indexs Hall) as [t ->].
    cbn [rbind]. by eexists.
  - intros Hex. by rewrite (np_fancy_out_of_bounds base_data indexs Hex).
Qed.

(** X11.  Selecting every position in order changes nothing: built with
    the index list [0 .. n - 1], the subclass holds the same data and
    targets as when built with [indexs = None]. *)
Theorem SSL_init_all_indices (hundred : bool) root train transform download
    base_data base_targets :
  (if hundred then datasets_CIFAR100 else datasets_CIFAR10)
    root train download = Ok (base_data, base_targets) ->
  length base_data = length base_targets ->
  (if hundred then CIFAR100SSL_init else CIFAR10SSL_init)
    root (Some (Z.of_nat <$> seq 0 (length base_targets))) train transform
    download
  = (if hundred then CIFAR100SSL_init else CIFAR10SSL_init)
      root None train transform download.
Proof.
  intros Hload Hlen. rewrite !SSL_init_unfold, Hload.
  unfold select_indexs. cbn [data targets fst snd].
  rewrite <- Hlen at 1. rewrite !np_fancy_arange. done.
Qed.

End DatasetProperties.

Lemma SSL_init_index_bounds_witness :
  (exists ds,
     CIFAR100SSL_init (TV := toy_vision) "./data" (Some [-20; 19; 0]) true
       None false = Ok ds) /\
  CIFAR100SSL_init (TV := toy_vision) "./data" (Some [3; 20]) true
    None false = Raise IndexError.
Proof.
  destruct (SSL_init_index_bounds (TV := toy_vision) true "./data"
              [-20; 19; 0] true None false toy_data
              (ten_labels ++ ten_labels) eq_refl eq_refl) as [Hok _].
  destruct (SSL_init_index_bounds (TV := toy_vision) true "./data"
              [3; 20] true None false toy_data
              (ten_labels ++ ten_labels) eq_refl eq_refl) as [_ Hfail].
  split.
  - apply Hok. repeat constructor; vm_compute; congruence.
  - apply Hfail. apply Exists_cons_tl, Exists_cons_hd. right.
    vm_compute; congruence.
Defined.

Lemma SSL_init_all_indices_witness :
  CIFAR10SSL_init (TV := toy_vision) "./data"
    (Some (Z.of_nat <$> seq 0 (length (ten_labels ++ ten_labels)))) true
    None false
  = CIFAR10SSL_init (TV := toy_vision) "./data" None true None false.
Proof.
  exact (SSL_init_all_indices (TV := toy_vision) false "./data" true None
           false toy_data (ten_labels ++ ten_labels) eq_refl eq_refl).
Defined.

(** * Further properties of [TransformSSL] and [get_train_dataset] *)

Section TrainingProperties.
Context `{TV : Torchvision}.

Lemma accepted_mode (md : string) :
  existsb (String.eqb md) ["fixmatch"; "comatch"] = true <->
  md = "fixmatch" \/ md = "comatch".
Proof.
  cbn [existsb].
  destruct (String.eqb_spec md "fixmatch"), (String.eqb_spec md "comatch");
    cbn [orb]; split; try tauto; try discriminate; intros [?|?]; done.
Qed.

Lemma MAP_DATASET_known (hundred : bool) :
  MAP_DATASET !! (if hundred then "cifar100" else "cifar10" : string)
  = Some (if hundred then CIFAR100_init else CIFAR10_init).
Proof.
  unfold MAP_DATASET. destruct hundred.
  - by rewrite lookup_insert_ne, lookup_insert_eq.
  - by rewrite lookup_insert_eq.
Qed.

Lemma MAP_SSL_DATASET_known (hundred : bool) :
  MAP_SSL_DATASET !! (if hundred then "cifar100" else "cifar10" : string)
  = Some (if hundred then CIFAR100SSL_init else CIFAR10SSL_init).
Proof.
  unfold MAP_SSL_DATASET. destruct hundred.
  - by rewrite lookup_insert_ne, lookup_insert_eq.
  - by rewrite lookup_insert_eq.
Qed.

(** X12.  The views of the training modes are nested.  For transform
    objects that share their pipelines and differ in the mode only, and
    from the same image and the same random source, the single view of
    mode ["casual"] is the first view of mode ["fixmatch"], and the pair
    of mode ["fixmatch"] opens the triple returned for any further
    mode. *)
Theorem TransformSSL_views_nested (t1 t2 t3 : TransformSSL)
    (x : image) (g : rng) :
  mode t1 = "casual" ->
  mode t2 = "fixmatch" ->
  mode t3 <> "test" -> mode t3 <> "casual" -> mode t3 <> "fixmatch" ->
  weak t2 = weak t1 -> weak t3 = weak t1 ->
  strong1 t3 = strong1 t2 ->
  normalize t2 = normalize t1 -> normalize t3 = normalize t1 ->
  exists a b c g1 g2 g3,
    TransformSSL_call t1 x g = (View1 a, g1) /\
    TransformSSL_call t2 x g = (View2 a b, g2) /\
    TransformSSL_call t3 x g = (View3 a b c, g3).
Proof.
  intros H1 H2 Ht Hc Hf Hw2 Hw3 Hs3 Hn2 Hn3.
  apply String.eqb_neq in Ht, Hc, Hf.
  unfold TransformSSL_call.
  rewrite H1, H2, Ht, Hc, Hf, Hw2, Hw3, Hs3, Hn2, Hn3.
  change (String.eqb "casual" "test") with false.
  change (String.eqb "casual" "casual") with true.
  change (String.eqb "fixmatch" "test") with false.
  change (String.eqb "fixmatch" "casual") with false.
  change (String.eqb "fixmatch" "fixmatch") with true.
  destruct (weak t1 x g) as [w g1].
  destruct (strong1 t2 x g1) as [s1 g2].
  destruct (strong2 t3 x g2) as [s2 g3].
  by eexists _, _, _, _, _, _.
Qed.

(** X13.  [get_train_dataset] never returns: whatever the arguments and
    the random source, it raises.  Every path that survives the mode
    assertion, the dataset lookup, the load and the split ends in
    [TransformSSL(dataset, "casual")], whose constructor reads the
    attribute [DATASET_NORMS] that nothing defines. *)
Theorem get_train_dataset_never_returns data_path dataset (md : string)
    num_labeled batch_size eval_step expand_labels g :
  exists e,
    get_train_dataset data_path dataset md num_labeled batch_size eval_step
      expand_labels g = Raise e.
Proof.
  unfold get_train_dataset, bind, lift.
  destruct (py_assert _); [|by eexists].
  destruct (dict_getitem MAP_DATASET dataset) as [cls|]; [|by eexists].
  destruct (cls data_path true None true) as [base|]; [|by eexists].
  destruct (x_u_split _ _ _ _ _ _ g) as [[idxs g']|]; [|by eexists].
  destruct (dict_getitem MAP_SSL_DATASET dataset); [|by eexists].
  by eexists.
Qed.

(** X14.  Which error [get_train_dataset] raises once the mode is
    accepted and the base dataset of a known name has loaded: the error
    of [x_u_split] on the base targets if it raises, and otherwise the
    [AttributeError] of the transform constructor, before either
    training set is built. *)
Theorem get_train_dataset_raises (hundred : bool) data_path (md : string)
    num_labeled batch_size eval_step expand_labels g base_data base_targets :
  let dataset : string := if hundred then "cifar100" else "cifar10" in
  md = "fixmatch" \/ md = "comatch" ->
  (if hundred then datasets_CIFAR100 else datasets_CIFAR10)
    data_path true true = Ok (base_data, base_targets) ->
  get_train_dataset data_path dataset md num_labeled batch_size eval_step
    expand_labels g
  = Raise match x_u_split dataset base_targets num_labeled eval_step
                  expand_labels batch_size g with
          | Ok _ => AttributeError "DATASET_NORMS"
          | Raise e => e
          end.
Proof.
  intros dataset Hmd Hload. subst dataset.
  unfold get_train_dataset, bind, lift.
  rewrite (proj2 (accepted_mode md) Hmd). cbn [py_assert].
  unfold dict_getitem. rewrite MAP_DATASET_known, MAP_SSL_DATASET_known.
  assert ((if hundred then CIFAR100_init else CIFAR10_init)
            data_path true None true
          = Ok {| data := base_data; targets := base_targets;
                  transform := None |}) as ->.
  { destruct hundred; unfold CIFAR100_init, CIFAR10_init;
      by rewrite Hload. }
  cbn [targets].
  by destruct (x_u_split _ base_targets _ _ _ _ g) as [[idxs g']|].
Qed.

End TrainingProperties.

Lemma TransformSSL_views_nested_witness :
  exists a b c g1 g2 g3,
    TransformSSL_call (toy_transform "casual") 7%nat rng_count
      = (View1 a, g1) /\
    TransformSSL_call (toy_transform "fixmatch") 7%nat rng_count
      = (View2 a b, g2) /\
    TransformSSL_call (toy_transform "comatch") 7%nat rng_count
      = (View3 a b c, g3).
Proof.
  apply (TransformSSL_views_nested (TV := toy_vision)
           (toy_transform "casual") (toy_transform "fixmatch")
           (toy_transform "comatch") 7%nat rng_count);
    (reflexivity || discriminate).
Defined.

Lemma get_train_dataset_raises_witness :
  get_train_dataset (TV := toy_vision) "./data" "cifar10" "fixmatch" 10 5 2
    false rng_count = Raise (AttributeError "DATASET_NORMS") /\
  get_train_dataset (TV := toy_vision) "./data" "cifar10" "comatch" 30 5 2
    false rng_count = Raise ValueError.
Proof.
  split.
  - apply (get_train_dataset_raises (TV := toy_vision) false "./data"
             "fixmatch" 10 5 2 false rng_count toy_data
             (ten_labels ++ ten_labels)); [by left | reflexivity].
  - apply (get_train_dataset_raises (TV := toy_vision) false "./data"
             "comatch" 30 5 2 false rng_count toy_data
             (ten_labels ++ ten_labels)); [by right | reflexivity].
Defined.

(** * Properties of [SSLDataModule] *)

Section DataModuleProperties.
Context `{TV : Torchvision}.
Import SSLDataModule.

(** X15.  [prepare_data] never gets to load anything: for the dataset
    names ["cifar10"] and ["cifar100"] it raises the [AttributeError] of
    the test transform's constructor, whatever the mode and the other
    settings. *)
Theorem prepare_data_attribute_error (self : t) g :
  dataset self = "cifar10" \/ dataset self = "cifar100" ->
  prepare_data self g = Raise (AttributeError "DATASET_NORMS").
Proof.
  intros Hds. unfold prepare_data, bind, lift, dict_getitem.
  assert (exists cls, MAP_DATASET !! dataset self = Some cls) as [cls ->].
  { destruct Hds as [-> | ->].
    - exists CIFAR10_init. apply (MAP_DATASET_known false).
    - exists CIFAR100_init. apply (MAP_DATASET_known true). }
  done.
Qed.

(** X18.  A data module straight out of [__init__] has no datasets:
    [train_dataloader] and [val_dataloader] raise [AttributeError] until
    [prepare_data] has run. *)
Theorem SSLDataModule_needs_prepare_data data_path dataset mu md num_labeled
    batch_size eval_step expand_labels :
  let self := init data_path dataset mu md num_labeled batch_size eval_step
                expand_labels in
  train_dataloader self = Raise (AttributeError "train_labeled_dataset") /\
  val_dataloader self = Raise (AttributeError "test_dataset").
Proof. by split. Qed.

(** X19.  [prepare_data] looks the dataset name up before anything else:
    a name other than ["cifar10"] and ["cifar100"] raises [KeyError],
    whatever the mode. *)
Theorem prepare_data_unknown_dataset (self : t) g :
  dataset self <> "cifar10" -> dataset self <> "cifar100" ->
  prepare_data self g = Raise KeyError.
Proof.
  intros H10 H100. unfold prepare_data, bind, lift, dict_getitem.
  by rewrite MAP_DATASET_unknown.
Qed.

End DataModuleProperties.

Lemma prepare_data_attribute_error_witness :
  SSLDataModule.prepare_data (TV := toy_vision)
    (SSLDataModule.init "./data" "cifar100" 7 "fixmatch" 4000 128 1024 true)
    rng_zero = Raise (AttributeError "DATASET_NORMS").
Proof.
  apply (prepare_data_attribute_error (TV := toy_vision)). by right.
Defined.

Lemma prepare_data_unknown_dataset_witness :
  SSLDataModule.prepare_data (TV := toy_vision)
    (SSLDataModule.init "./data" "mnist" 7 "fixmatch" 4000 128 1024 true)
    rng_zero = Raise KeyError.
Proof.
  apply (prepare_data_unknown_dataset (TV := toy_vision)); discriminate.
Defined.
